(** * scikit-fda: basis representation and neighbor estimators

    A shallow embedding of

    - [skfda/representation/basis/_fdatabasis.py] (class [FDataBasis]) and
    - [skfda/ml/_neighbors_base.py] (the neighbor estimator mixins),

    together with the properties of these two modules stated in the
    specification of the repository.

    Conventions of the embedding.

    - A NumPy [float64] is a value of [num]: an exact rational, one of the
      two infinities, or NaN.  The special values follow IEEE-754 (NaN is
      different from everything, [0/0] is NaN, [x/0] is an infinity);
      rounding and the sign of zero are not modelled.
    - A raised exception is the [Raise] case of [result].
    - [NotImplemented] is a value the operators return, not an exception.
    - NumPy arrays that the code mutates in place live in a store ([heap])
      and are passed around by reference. *)

From Stdlib Require Import QArith Qcanon.
From stdpp Require Import base option list numbers strings gmap.

Set Default Proof Using "Type".

(** ** Numbers *)

Module Num.

Inductive num : Type :=
  | Fin (q : Qc)
  | Inf (negative : bool)
  | NaN.

Definition zero : num := Fin 0%Qc.
Definition one : num := Fin 1%Qc.
Definition of_Z (z : Z) : num := Fin (Q2Qc (inject_Z z)).
Definition of_nat (n : nat) : num := of_Z (Z.of_nat n).

Definition Qc_zerob (q : Qc) : bool := bool_decide (q = 0%Qc).
Definition Qc_negb (q : Qc) : bool := bool_decide (q < 0)%Qc.

(** [np.isnan] on one entry. *)
Definition isnan (x : num) : bool :=
  match x with NaN => true | _ => false end.

Definition is_fin (x : num) : bool :=
  match x with Fin _ => true | _ => false end.

(** [x == y] on floats: NaN compares unequal to everything. *)
Definition eqb (x y : num) : bool :=
  match x, y with
  | Fin a, Fin b => bool_decide (a = b)
  | Inf s, Inf t => bool_decide (s = t)
  | _, _ => false
  end.

Definition neg (x : num) : num :=
  match x with
  | Fin a => Fin (- a)%Qc
  | Inf s => Inf (negb s)
  | NaN => NaN
  end.

Definition add (x y : num) : num :=
  match x, y with
  | NaN, _ | _, NaN => NaN
  | Fin a, Fin b => Fin (a + b)%Qc
  | Inf s, Inf t => if bool_decide (s = t) then Inf s else NaN
  | Inf s, Fin _ | Fin _, Inf s => Inf s
  end.

Definition sub (x y : num) : num := add x (neg y).

Definition mul (x y : num) : num :=
  match x, y with
  | NaN, _ | _, NaN => NaN
  | Fin a, Fin b => Fin (a * b)%Qc
  | Inf s, Inf t => Inf (xorb s t)
  | Inf s, Fin a | Fin a, Inf s =>
      if Qc_zerob a then NaN else Inf (xorb s (Qc_negb a))
  end.

Definition div (x y : num) : num :=
  match x, y with
  | NaN, _ | _, NaN => NaN
  | Fin a, Fin b =>
      if Qc_zerob b
      then (if Qc_zerob a then NaN else Inf (Qc_negb a))
      else Fin (a / b)%Qc
  | Fin _, Inf _ => zero
  | Inf s, Fin b => Inf (xorb s (Qc_negb b))
  | Inf _, Inf _ => NaN
  end.

(** [np.square] on one entry. *)
Definition square (x : num) : num := mul x x.

(** [np.sum] of a one-dimensional array. *)
Definition sum (l : list num) : num := foldr add zero l.

(** [x < y] on floats: false as soon as a NaN is involved. *)
Definition ltb (x y : num) : bool :=
  match x, y with
  | Fin a, Fin b => bool_decide (a < b)%Qc
  | Inf true, Fin _ | Inf true, Inf false | Fin _, Inf false => true
  | _, _ => false
  end.

(** Strict positivity of a finite value. *)
Definition positive (x : num) : Prop :=
  match x with Fin a => (0 < a)%Qc | _ => False end.

End Num.

Import Num.

Declare Scope num_scope.
Delimit Scope num_scope with num.
Bind Scope num_scope with num.
Infix "+" := add : num_scope.
Infix "-" := sub : num_scope.
Infix "*" := mul : num_scope.
Infix "/" := div : num_scope.
Infix "=?" := eqb : num_scope.

(** Numerals used in examples. *)
Definition n0 : num := zero.
Definition n1 : num := one.
Definition n2 : num := of_Z 2.
Definition n5 : num := of_Z 5.
Definition half : num := (n1 / n2)%num.

Global Instance num_eq_dec : EqDecision num.
Proof. solve_decision. Defined.

(** ** Exceptions and results *)

(** The [ValueError]s the two modules raise, by the place that raises
    them. *)
Inductive value_error : Type :=
  | CoefficientsLength      (* FDataBasis.__init__ *)
  | MetadataLength          (* FData.__init__ *)
  | NegativeOrder           (* FDataBasis.derivative *)
  | DifferentBasis          (* FDataBasis.concatenate *)
  | DifferentGrid           (* operations between grids *)
  | SampleCount             (* _functional_fit *)
  | NoNeighbors (index : list nat)   (* _outlier_response *)
  | ScoreMultivariate       (* _functional_score, dimensions *)
  | WeightPerSample         (* _functional_score, sample_weight *)
  | Broadcast.              (* NumPy: shapes that cannot be broadcast *)

Inductive exn : Type :=
  | ValueError (why : value_error)
  | TypeError
  | AttributeError
  | IndexError
  | NotFittedError.

Inductive result (A : Type) : Type :=
  | Ok (a : A)
  | Raise (e : exn).
Arguments Ok {A} a.
Arguments Raise {A} e.

Definition rbind {A B} (r : result A) (k : A → result B) : result B :=
  match r with Ok a => k a | Raise e => Raise e end.

Notation "x ←r e1 ; e2" := (rbind e1 (λ x, e2))
  (at level 20, e1 at level 100, e2 at level 200, right associativity,
   format "x  ←r  e1 ;  '/' e2").
Notation "' p ←r e1 ; e2" := (rbind e1 (λ p, e2))
  (at level 20, p pattern, e1 at level 100, e2 at level 200,
   right associativity).

Global Instance value_error_eq_dec : EqDecision value_error.
Proof. solve_decision. Defined.
Global Instance exn_eq_dec : EqDecision exn.
Proof. solve_decision. Defined.
Global Instance result_eq_dec {A} `{EqDecision A} : EqDecision (result A).
Proof. solve_decision. Defined.

(** What a binary operator method gives back: a value, the
    [NotImplemented] sentinel (Python then tries the reflected method of
    the other operand), or an exception. *)
Inductive op_result (A : Type) : Type :=
  | Handled (a : A)
  | NotImplemented
  | Failed (e : exn).
Arguments Handled {A} a.
Arguments NotImplemented {A}.
Arguments Failed {A} e.

Definition of_result {A} (r : result A) : op_result A :=
  match r with Ok a => Handled a | Raise e => Failed e end.

(** ** Two-dimensional arrays *)

(** A NumPy array of shape [(length rows, ncols)].  The number of columns
    is kept apart from the rows because an array with no row still has
    one. *)
Record array2 : Type := Array2 {
  rows : list (list num);
  ncols : nat;
}.

(** What the constructor accepts for the coefficients: a scalar, a vector
    or a matrix. *)
Inductive array_like : Type :=
  | A0 (x : num)
  | A1 (v : list num)
  | A2 (m : array2).

(** [np.atleast_2d]. *)
Definition atleast_2d (a : array_like) : array2 :=
  match a with
  | A0 x => Array2 [[x]] 1
  | A1 v => Array2 [v] (length v)
  | A2 m => m
  end.

(** Modelled from the spec: [_int_to_real], a helper of the package, is
    not among the source files.  For the spec the constructor promotes
    the coefficients to a matrix and validates the number of columns; the
    helper turns an array of integers into an array of floats of the same
    shape, and [num] has one kind of number. *)
Definition _int_to_real (a : array2) : array2 := a.

Fixpoint forallb2 {A B} (f : A → B → bool) (l : list A) (k : list B) : bool :=
  match l, k with
  | [], [] => true
  | x :: l', y :: k' => f x y && forallb2 f l' k'
  | _, _ => false
  end.

(** [np.array_equal]: same shape and every pair of entries equal under
    [==], so an array holding a NaN is not equal to itself. *)
Definition array_equal (a b : array2) : bool :=
  bool_decide (length (rows a) = length (rows b))
  && bool_decide (ncols a = ncols b)
  && forallb2 (forallb2 eqb) (rows a) (rows b).

(** No entry of the array is NaN. *)
Definition nan_free (a : array2) : bool :=
  forallb (forallb (λ x, negb (isnan x))) (rows a).

(** ** The basis system (external collaborator)

    The basis families live outside the two modules; the representation
    only consumes this interface.  [basis_eqb] is the family's [__eq__];
    a deep copy of a basis compares equal to the basis it was copied
    from, which is what [basis_eqb_refl] records. *)
Class BasisSystem (B C : Type) : Type := {
  n_basis : B → nat;
  basis_dim_domain : B → nat;
  basis_dim_codomain : B → nat;
  basis_eqb : B → B → bool;
  basis_eqb_refl : ∀ b, basis_eqb b b = true;
  _derivative_basis_and_coefs : B → array2 → Z → result (B * array2);
  _add_same_basis : B → array2 → array2 → result (B * array2);
  _add_constant : B → array2 → C → result (B * array2);
  _sub_same_basis : B → array2 → array2 → result (B * array2);
  _sub_constant : B → array2 → C → result (B * array2);
}.

(** ** Metadata owned by the base class [FData] *)

Record FDataMeta : Type := Meta {
  dataset_name : option string;
  argument_names : option (list string);
  coordinate_names : option (list string);
  sample_names : option (list string);
  extrapolation : option string;
}.

Global Instance FDataMeta_eq_dec : EqDecision FDataMeta.
Proof. solve_decision. Defined.

Definition no_meta : FDataMeta := Meta None None None None None.

Definition names_fit (names : option (list string)) (n : nat) : bool :=
  match names with
  | None => true
  | Some l => bool_decide (length l = n)
  end.

(** Modelled from the spec: [FData.__init__], the base-class constructor,
    is not among the source files.  The spec gives its check: the sample,
    argument and coordinate names are optional sequences whose lengths
    must match the number of samples, the domain dimension and the
    codomain dimension when present. *)
Definition FData_init (n_samples dim_domain dim_codomain : nat)
    (m : FDataMeta) : result FDataMeta :=
  if names_fit (sample_names m) n_samples
     && names_fit (argument_names m) dim_domain
     && names_fit (coordinate_names m) dim_codomain
  then Ok m
  else Raise (ValueError MetadataLength).

(** [x if x is not None else y], the pattern of [copy]. *)
Definition or_self {A} (given current : option A) : option A :=
  match given with Some _ => given | None => current end.

(** ** FDataBasis *)

Module Basis.
Section FDataBasis.
Context {B C : Type} `{!BasisSystem B C}.

Record FDataBasis : Type := MkFDataBasis {
  basis : B;
  coefficients : array2;
  meta : FDataMeta;
}.

(** [FDataBasis.__init__]. *)
Definition __init__ (basis : B) (coefficients : array_like)
    (m : FDataMeta) : result FDataBasis :=
  let coefficients := _int_to_real (atleast_2d coefficients) in
  if negb (bool_decide (ncols coefficients = n_basis basis))
  then Raise (ValueError CoefficientsLength)
  else
    m' ←r FData_init (length (rows coefficients))
            (basis_dim_domain basis) (basis_dim_codomain basis) m;
    Ok (MkFDataBasis basis coefficients m').

(** An instance that came out of the constructor. *)
Definition constructed (fd : FDataBasis) : Prop :=
  ∃ basis coefficients m, __init__ basis coefficients m = Ok fd.

Definition n_samples (self : FDataBasis) : nat :=
  length (rows (coefficients self)).

(** [copy.deepcopy] of a basis: an equal value. *)
Definition deepcopy (b : B) : B := b.

(** [FDataBasis.copy]: every argument defaults to the field of [self]. *)
Definition copy (self : FDataBasis) (basis' : option B)
    (coefficients' : option array_like) (m : FDataMeta)
    : result FDataBasis :=
  let basis0 := default (deepcopy (basis self)) basis' in
  let coefficients0 := default (A2 (coefficients self)) coefficients' in
  let m0 := Meta (or_self (dataset_name m) (dataset_name (meta self)))
              (or_self (argument_names m) (argument_names (meta self)))
              (or_self (coordinate_names m) (coordinate_names (meta self)))
              (or_self (sample_names m) (sample_names (meta self)))
              (or_self (extrapolation m) (extrapolation (meta self))) in
  __init__ basis0 coefficients0 m0.

(** Modelled from the spec: [FData.equals], the base-class part of
    [equals], is not among the source files.  The spec's structural
    equality compares the basis and the coefficient matrix; the part
    left to the base class compares the metadata it owns. *)
Definition FData_equals (self other : FDataBasis) : bool :=
  bool_decide (meta self = meta other).

(** [FDataBasis.equals]. *)
Definition equals (self other : FDataBasis) : bool :=
  FData_equals self other
  && basis_eqb (basis self) (basis other)
  && array_equal (coefficients self) (coefficients other).

(** [FDataBasis.derivative]; the docstring types [order] as an int. *)
Definition derivative (self : FDataBasis) (order : Z)
    : result FDataBasis :=
  if (order <? 0)%Z then Raise (ValueError NegativeOrder)
  else if (order =? 0)%Z then copy self None None no_meta
  else
    '(basis', coefficients') ←r
      _derivative_basis_and_coefs (basis self) (coefficients self) order;
    __init__ basis' (A2 coefficients') no_meta.

(** [FDataBasis.isna]: [np.all(np.isnan(coefficients), axis=1)]. *)
Definition isna (self : FDataBasis) : list bool :=
  map (forallb isnan) (rows (coefficients self)).

(** The right operand of [+] and [-]. *)
Inductive operand : Type :=
  | OtherBasis (other : FDataBasis)
  | OtherConstant (c : C).

Section Collaborators.
(** [to_grid(eval_points).to_basis(basis)]: discretization on a grid
    and least-squares refit, both done by the grid representation. *)
Variable grid_refit : FDataBasis → B → result FDataBasis.

(** [FData._copy_op(other, basis=..., coefficients=...)], a method of
    the base class. *)
Variable _copy_op : FDataBasis → operand → B → array2 → result FDataBasis.

(** [FDataBasis.to_basis]. *)
Definition to_basis (self : FDataBasis) (basis' : B)
    : result FDataBasis :=
  if basis_eqb basis' (basis self) then copy self None None no_meta
  else grid_refit self basis'.

(** [FDataBasis.__add__]. *)
Definition __add__ (self : FDataBasis) (other : operand)
    : op_result FDataBasis :=
  match other with
  | OtherBasis o =>
      if negb (basis_eqb (basis self) (basis o)) then NotImplemented
      else
        of_result (
          '(basis', coefs) ←r
            _add_same_basis (basis self) (coefficients self)
              (coefficients o);
          _copy_op self other basis' coefs)
  | OtherConstant c =>
      match _add_constant (basis self) (coefficients self) c with
      | Raise TypeError => NotImplemented
      | Raise e => Failed e
      | Ok (basis', coefs) => of_result (_copy_op self other basis' coefs)
      end
  end.

(** [FDataBasis.__sub__]. *)
Definition __sub__ (self : FDataBasis) (other : operand)
    : op_result FDataBasis :=
  match other with
  | OtherBasis o =>
      if negb (basis_eqb (basis self) (basis o)) then NotImplemented
      else
        of_result (
          '(basis', coefs) ←r
            _sub_same_basis (basis self) (coefficients self)
              (coefficients o);
          _copy_op self other basis' coefs)
  | OtherConstant c =>
      match _sub_constant (basis self) (coefficients self) c with
      | Raise TypeError => NotImplemented
      | Raise e => Failed e
      | Ok (basis', coefs) => of_result (_copy_op self other basis' coefs)
      end
  end.
End Collaborators.
End FDataBasis.
Arguments FDataBasis B : clear implicits.
End Basis.

(** ** Grids *)

(** The discretized representation [FDataGrid], as far as the neighbor
    estimators look into it.  [data_matrix] has one entry per sample; a
    sample has one entry per point of the grid (the domain axes taken
    together, in row-major order); a point has [dim_codomain] values.
    [grid_points] has one array per domain axis. *)
Record FDataGrid : Type := MkFDataGrid {
  grid_points : list (list num);
  dim_codomain : nat;
  data_matrix : list (list (list num));
}.

Global Instance FDataGrid_eq_dec : EqDecision FDataGrid.
Proof. solve_decision. Defined.

Module Grid.

Definition n_samples (g : FDataGrid) : nat := length (data_matrix g).
Definition dim_domain (g : FDataGrid) : nat := length (grid_points g).

(** [data_matrix.shape[1:]]. *)
Definition shape_tail (g : FDataGrid) : list nat :=
  map length (grid_points g) ++ [dim_codomain g].

(** Number of points of the grid: the product of the axis lengths. *)
Definition n_points (axes : list (list num)) : nat :=
  foldr Nat.mul 1 (map length axes).

(** [X.copy()]. *)
Definition copy (g : FDataGrid) : FDataGrid := g.

(** The grid holding only sample [i]. *)
Definition sample (g : FDataGrid) (i : nat) : FDataGrid :=
  MkFDataGrid (grid_points g) (dim_codomain g)
    (option_list (data_matrix g !! i)).

(** Same grid points and codomain. *)
Definition same_grid (g h : FDataGrid) : bool :=
  bool_decide (grid_points g = grid_points h)
  && bool_decide (dim_codomain g = dim_codomain h).

Definition zero_sample (g : FDataGrid) : list (list num) :=
  replicate (n_points (grid_points g)) (replicate (dim_codomain g) zero).

Definition add_sample (a b : list (list num)) : list (list num) :=
  zip_with (zip_with add) a b.

Definition scale_sample (w : num) (a : list (list num)) : list (list num) :=
  map (map (mul w)) a.

(** Pointwise sum of the samples, as one sample. *)
Definition sum_samples (g : FDataGrid) : list (list num) :=
  foldr add_sample (zero_sample g) (data_matrix g).

Definition with_data (g : FDataGrid) (d : list (list (list num)))
    : FDataGrid :=
  MkFDataGrid (grid_points g) (dim_codomain g) d.

(** Modelled from the spec: the operations of [FDataGrid] the
    estimators call are not among the source files.  The spec names
    them by what they compute: indexing selects samples, the mean and
    the sum over samples are pointwise, a product with a vector scales
    each sample by its weight, a difference is pointwise (a single
    sample is broadcast), and joining stacks the samples of grids over
    the same points. *)
Definition getitem (g : FDataGrid) (idx : list nat) : FDataGrid :=
  with_data g (omap (λ i, data_matrix g !! i) idx).

Definition sum (g : FDataGrid) : FDataGrid :=
  with_data g [sum_samples g].

Definition mean (g : FDataGrid) : FDataGrid :=
  with_data g
    [map (map (λ s, s / of_nat (n_samples g))%num) (sum_samples g)].

Definition mul (g : FDataGrid) (w : list num) : FDataGrid :=
  with_data g (zip_with scale_sample w (data_matrix g)).

Definition sub_sample (a b : list (list num)) : list (list num) :=
  zip_with (zip_with sub) a b.

Definition sub (g h : FDataGrid) : result FDataGrid :=
  if negb (same_grid g h) then Raise (ValueError DifferentGrid)
  else
    match data_matrix h with
    | [b] => Ok (with_data g (map (λ a, sub_sample a b) (data_matrix g)))
    | hs =>
        if bool_decide (n_samples g = length hs)
        then Ok (with_data g (zip_with sub_sample (data_matrix g) hs))
        else Raise (ValueError DifferentGrid)
    end.

Definition concatenate (g h : FDataGrid) : result FDataGrid :=
  if same_grid g h
  then Ok (with_data g (data_matrix g ++ data_matrix h))
  else Raise (ValueError DifferentGrid).

End Grid.

(** ** Functional data (interface)

    What the estimators need from a functional response, whatever its
    representation: the base class [FData]. *)
Class FData (T : Type) : Type := {
  fd_n_samples : T → nat;
  fd_dim_domain : T → nat;
  fd_dim_codomain : T → nat;
  fd_getitem : T → list nat → T;          (* y[idx] *)
  fd_concatenate : T → T → result T;      (* a.concatenate(b) *)
  fd_mean : T → T;                        (* np.mean(y, axis=0), y.mean() *)
  fd_sum : T → T;                         (* np.sum(y, axis=0) *)
  fd_mul : T → list num → T;              (* y * weights *)
  fd_sub : T → T → result T;              (* a - b *)
  fd_as_grid : T → option FDataGrid;      (* Some when type(y) is FDataGrid *)
  fd_to_grid : T → FDataGrid;             (* y.to_grid() *)
}.

Global Instance FDataGrid_FData : FData FDataGrid := {
  fd_n_samples := Grid.n_samples;
  fd_dim_domain := Grid.dim_domain;
  fd_dim_codomain := dim_codomain;
  fd_getitem := Grid.getitem;
  fd_concatenate := Grid.concatenate;
  fd_mean := Grid.mean;
  fd_sum := Grid.sum;
  fd_mul := Grid.mul;
  fd_sub := Grid.sub;
  fd_as_grid := Some;
  fd_to_grid := id;
}.

(** ** The store of mutable arrays *)

(** One-dimensional float arrays that the code updates in place are held
    in a store and named by their location; two names for one array are
    one location. *)
Abbreviation loc := nat (only parsing).
Abbreviation heap := (gmap nat (list num)) (only parsing).

(** A computation that reads and writes the store and may raise. *)
Definition M (A : Type) : Type := heap → result (A * heap).

Definition mret {A} (a : A) : M A := λ σ, Ok (a, σ).
Definition mbindM {A B} (m : M A) (k : A → M B) : M B :=
  λ σ, match m σ with Ok (a, σ') => k a σ' | Raise e => Raise e end.
Definition lift {A} (r : result A) : M A :=
  λ σ, match r with Ok a => Ok (a, σ) | Raise e => Raise e end.

Notation "x ←m e1 ; e2" := (mbindM e1 (λ x, e2))
  (at level 20, e1 at level 100, e2 at level 200, right associativity,
   format "x  ←m  e1 ;  '/' e2").

(** The contents of an array. *)
Definition load (l : loc) : M (list num) :=
  λ σ, Ok (default [] (σ !! l), σ).

(** Overwriting an array in place. *)
Definition store (l : loc) (v : list num) : M unit :=
  λ σ, Ok ((), <[l := v]> σ).

(** A new array, at a location not in use. *)
Definition alloc (v : list num) : M loc :=
  λ σ, let l := fresh (dom σ) in Ok (l, <[l := v]> σ).

Fixpoint alloc_all (vs : list (list num)) : M (list loc) :=
  match vs with
  | [] => mret []
  | v :: vs' => l ←m alloc v; ls ←m alloc_all vs'; mret (l :: ls)
  end.

(** [σ'] keeps every array of [σ], the one at [except] aside. *)
Definition frame (except : loc) (σ σ' : heap) : Prop :=
  ∀ l, l ≠ except → is_Some (σ !! l) → σ' !! l = σ !! l.

(** From position [from] on, the arrays named by [ds] hold the rows of
    [D]. *)
Definition intact (ds : list loc) (D : list (list num)) (from : nat)
    (σ : heap) : Prop :=
  ∀ j l, from ≤ j → ds !! j = Some l → σ !! l = D !! j ∧ is_Some (D !! j).

(** [a[mask] = v] for a boolean mask. *)
Definition set_where (mask : list bool) (v : num) (a : list num) : list num :=
  zip_with (λ (b : bool) x, if b then v else x) mask a.

(** [enumerate]. *)
Definition enumerate {A} (l : list A) : list (nat * A) :=
  zip (seq 0 (length l)) l.

(** [np.where(flags)[0]]: the positions that hold [True]. *)
Definition where_true (flags : list bool) : list nat :=
  map fst (filter (λ p, snd p = true) (enumerate flags)).

(** ** Neighbor estimators *)

(** The [weights] parameter. *)
Inductive WeightsType : Type :=
  | Uniform
  | Distance
  | Callable (f : list num → list num).

(** The [metric] parameter: one of the two tags or a distance between
    grids. *)
Inductive Metric : Type :=
  | MetricPrecomputed
  | MetricL2
  | MetricCallable (f : FDataGrid → FDataGrid → num).

(** [self.metric == 'precomputed']. *)
Definition is_precomputed (m : Metric) : bool :=
  match m with MetricPrecomputed => true | _ => false end.

(** What is handed to the index as its metric: the tag ['precomputed'],
    a metric on flat vectors, or the estimator's own [metric] as it
    stands. *)
Inductive sklearn_metric : Type :=
  | SkPrecomputed
  | SkVector (f : list num → list num → num)
  | SkAsGiven (m : Metric).

(** What an estimator is given as [X]: functional data, or a matrix when
    the metric is precomputed. *)
Inductive Input : Type :=
  | XGrid (g : FDataGrid)
  | XMatrix (m : list (list num)).

(** [len(X)]. *)
Definition input_len (X : Input) : nat :=
  match X with
  | XGrid g => Grid.n_samples g
  | XMatrix m => length m
  end.

(** [_to_multivariate]: [data_matrix.reshape(n_samples, -1)]. *)
Definition _to_multivariate (fdatagrid : FDataGrid) : list (list num) :=
  map (λ sample, concat sample) (data_matrix fdatagrid).

(** Cutting a flat vector into [n] consecutive pieces of [k] entries. *)
Fixpoint chunks (k n : nat) (l : list num) : list (list num) :=
  match n with
  | O => []
  | S n' => take k l :: chunks k n' (drop k l)
  end.

(** [_from_multivariate] at the shape [_to_multivariate_metric] uses:
    one sample, the axis lengths of the grid, and the codomain dimension
    inferred from the length of the vector. *)
Definition _from_multivariate (data : list num) (axes : list (list num))
    : FDataGrid :=
  let points := Grid.n_points axes in
  let codomain := (length data / points)%nat in
  MkFDataGrid axes codomain [chunks codomain points data].

(** [_to_multivariate_metric]. *)
Definition _to_multivariate_metric (metric : FDataGrid → FDataGrid → num)
    (axes : list (list num)) : list num → list num → num :=
  λ x y, metric (_from_multivariate x axes) (_from_multivariate y axes).

(** [np.zeros(shape=(n, n))]. *)
Definition zeros (n : nat) : list (list num) :=
  replicate n (replicate n zero).

(** Modelled from the spec: [PairwiseMetric], from the metrics module, is
    not among the source files.  The spec has it compute "the pairwise
    distance from query to training set": entry [(i, j)] is the distance
    between sample [i] of the first argument and sample [j] of the
    second. *)
Definition PairwiseMetric (metric : FDataGrid → FDataGrid → num)
    (X Y : FDataGrid) : list (list num) :=
  map (λ i, map (λ j, metric (Grid.sample X i) (Grid.sample Y j))
              (seq 0 (Grid.n_samples Y)))
      (seq 0 (Grid.n_samples X)).

Module Neighbors.
Section Estimators.
(** [T]: functional responses.  [Y]: class labels or numeric targets.
    [P]: the parameters passed on to the index untouched
    ([n_neighbors], [radius], [algorithm], [leaf_size],
    [metric_params], [n_jobs]).  [Index]: the search engine of
    [sklearn.neighbors]. *)
Context {T : Type} `{!FData T} {Y P Index : Type}.

(** [l2_distance], from the metrics module. *)
Variable l2_distance : FDataGrid → FDataGrid → num.

(** The fit step of a metric object: the metric after [metric.fit(X)].
    A metric without such a step is left as it is. *)
Variable metric_fit :
  (FDataGrid → FDataGrid → num) → FDataGrid → FDataGrid → FDataGrid → num.

(** The search engine: its constructor, [fit] and [predict]. *)
Variable NearestNeighbors : P → sklearn_metric → Index.
Variable index_fit : Index → Input → option Y → result Index.
Variable index_predict : Index → Input → result Y.

(** The constructor arguments. *)
Record Config : Type := MkConfig {
  weights : WeightsType;
  metric : Metric;
  params : P;
  precompute_metric : bool;
  multivariate_metric : bool;
  outlier_response : option T;   (* set by the radius regressor only *)
}.

(** The attributes created by [fit]; [None] is an attribute that does
    not exist yet. *)
Record Fitted : Type := MkFitted {
  estimator_ : option Index;
  _grid_points : option (list (list num));
  _shape : option (list nat);
  _fit_X : option FDataGrid;
  _functional : option bool;
  _y : option T;
}.

Record Estimator : Type := MkEstimator {
  config :> Config;
  fitted :> Fitted;
}.

Definition unfitted : Fitted := MkFitted None None None None None None.

Definition set_metric (self : Estimator) (m : Metric) : Estimator :=
  MkEstimator
    (MkConfig (weights self) m (params self) (precompute_metric self)
       (multivariate_metric self) (outlier_response self))
    self.

Definition set_estimator_ (self : Estimator) (e : Index) : Estimator :=
  MkEstimator self
    (MkFitted (Some e) (_grid_points self) (_shape self) (_fit_X self)
       (_functional self) (_y self)).

Definition set_grid (self : Estimator) (g : FDataGrid) : Estimator :=
  MkEstimator self
    (MkFitted (estimator_ self) (Some (grid_points g))
       (Some (Grid.shape_tail g)) (_fit_X self) (_functional self)
       (_y self)).

Definition set_fit_X (self : Estimator) (g : FDataGrid) : Estimator :=
  MkEstimator self
    (MkFitted (estimator_ self) (_grid_points self) (_shape self) (Some g)
       (_functional self) (_y self)).

Definition set_functional (self : Estimator) (b : bool) : Estimator :=
  MkEstimator self
    (MkFitted (estimator_ self) (_grid_points self) (_shape self)
       (_fit_X self) (Some b) (_y self)).

Definition set_y (self : Estimator) (y : T) : Estimator :=
  MkEstimator self
    (MkFitted (estimator_ self) (_grid_points self) (_shape self)
       (_fit_X self) (_functional self) (Some y)).

(** A missing attribute. *)
Definition attr {A} (a : option A) : result A :=
  match a with Some x => Ok x | None => Raise AttributeError end.

(** [_check_is_fitted]. *)
Definition _check_is_fitted (self : Estimator) : result Index :=
  match estimator_ self with
  | Some e => Ok e
  | None => Raise NotFittedError
  end.

(** [_transform_to_multivariate]. *)
Definition _transform_to_multivariate (self : Estimator)
    (X : option Input) : result (option Input) :=
  match X with
  | None => Ok None
  | Some X0 =>
      if negb (is_precomputed (metric self)) then
        match X0 with
        | XGrid g => Ok (Some (XMatrix (_to_multivariate g)))
        | XMatrix _ => Raise AttributeError
        end
      else Ok X
  end.

(** [l2_distance if self.metric == "l2" else self.metric], called as a
    function. *)
Definition functional_metric (m : Metric)
    : result (FDataGrid → FDataGrid → num) :=
  match m with
  | MetricL2 => Ok l2_distance
  | MetricCallable f => Ok f
  | MetricPrecomputed => Raise TypeError
  end.

(** Modelled from the spec: [_fit_metric], from the metrics module, is
    not among the source files.  The spec has it "fit the metric (if it
    exposes a fit step) against the raw functional data".  The call
    changes the metric object in place, so the metric of the estimator is
    the fitted one afterwards; the two tags are strings and stay as they
    are. *)
Definition _fit_metric (m : Metric) (X : FDataGrid) : Metric :=
  match m with
  | MetricCallable f => MetricCallable (metric_fit f X)
  | _ => m
  end.

(** [NeighborsBase.fit].  [_init_estimator] is the method of the
    concrete estimator class. *)
Definition fit (_init_estimator : Estimator → sklearn_metric → result Index)
    (self : Estimator) (X : Input) (y : option Y) : result Estimator :=
  if is_precomputed (metric self) then
    e ←r _init_estimator self SkPrecomputed;
    e' ←r index_fit e X y;
    Ok (set_estimator_ self e')
  else
    match X with
    | XMatrix _ => Raise AttributeError
    | XGrid g =>
        let self := set_grid self g in
        if multivariate_metric self then
          let self := set_metric self (_fit_metric (metric self) g) in
          e ←r _init_estimator self (SkAsGiven (metric self));
          e' ←r index_fit e (XMatrix (_to_multivariate g)) y;
          Ok (set_estimator_ self e')
        else if precompute_metric self then
          let self := set_metric self (_fit_metric (metric self) g) in
          let self := set_fit_X self (Grid.copy g) in
          e ←r _init_estimator self SkPrecomputed;
          e' ←r index_fit e (XMatrix (zeros (Grid.n_samples g))) y;
          Ok (set_estimator_ self e')
        else
          (* the object behind the tag 'l2' has no fit step *)
          let self := set_metric self (_fit_metric (metric self) g) in
          metric0 ←r functional_metric (metric self);
          grid0 ←r attr (_grid_points self);
          e ←r _init_estimator self
                 (SkVector (_to_multivariate_metric metric0 grid0));
          e' ←r index_fit e (XMatrix (_to_multivariate g)) y;
          Ok (set_estimator_ self e')
    end.

(** *** Classifiers *)

Section Classifier.
(** [_init_estimator] of the classifier classes. *)
Variable classifier_init : Estimator → sklearn_metric → result Index.

(** [NeighborsClassifierMixin.fit]. *)
Definition classifier_fit (self : Estimator) (X : Input) (y : Y)
    : result Estimator :=
  fit classifier_init self X (Some y).

(** [NeighborsClassifierMixin.predict]. *)
Definition classifier_predict (self : Estimator) (X : Input)
    : result Y :=
  e ←r _check_is_fitted self;
  X' ←r (if precompute_metric self then
           train ←r attr (_fit_X self);
           metric0 ←r functional_metric (metric self);
           match X with
           | XGrid g => Ok (XMatrix (PairwiseMetric metric0 g train))
           | XMatrix _ => Raise AttributeError
           end
         else
           X0 ←r _transform_to_multivariate self (Some X);
           Ok (default X X0));
  index_predict e X'.
End Classifier.

(** *** Regressors *)

(** The regression target: functional ([isinstance(y, FData)]) or a
    numeric array. *)
Inductive Target : Type :=
  | YFunctional (y : T)
  | YArray (y : Y).

Section Regressor.
(** Methods of the concrete regressor classes:
    [_init_multivariate_estimator] and [_query] (the k-nearest or the
    radius query of the fitted index, giving the distance arrays and
    the index arrays of the neighbors, one of each per sample). *)
Variable _init_multivariate_estimator :
  Estimator → sklearn_metric → Index.
Variable _query :
  Estimator → option Input → result (list (list num) * list (list nat)).

(** [NeighborsRegressorMixin._average]; [weights /= np.sum(weights)]
    overwrites the array it is given. *)
Definition _average (X : T) (weights : option loc) : M T :=
  match weights with
  | None => mret (fd_mean X)
  | Some w =>
      a ←m load w;
      _ ←m store w (map (λ x, x / Num.sum a)%num a);
      a' ←m load w;
      mret (fd_sum (fd_mul X a'))
  end.

(** [NeighborsRegressorMixin._distance_weights]. *)
Definition _distance_weights (distance : loc) : M loc :=
  d ←m load distance;
  let idx := map (λ x, x =? zero)%num d in
  if existsb id idx then
    let weights := distance in
    a ←m load weights;
    _ ←m store weights (set_where idx one a);
    a ←m load weights;
    _ ←m store weights (set_where (map negb idx) zero a);
    mret weights
  else
    alloc (map (λ x, one / x)%num d).

(** [NeighborsRegressorMixin._prediction_from_neighbors].  A callable
    [weights] is a function of the values that gives a new array. *)
Definition _prediction_from_neighbors (self : Estimator)
    (neighbors : T) (distance : loc) : M T :=
  match weights self with
  | Uniform => _average neighbors None
  | Distance =>
      w ←m _distance_weights distance;
      _average neighbors (Some w)
  | Callable f =>
      d ←m load distance;
      w ←m alloc (f d);
      _average neighbors (Some w)
  end.

(** [NeighborsRegressorMixin._init_estimator]. *)
Definition _init_estimator (self : Estimator)
    (sklearn_metric : sklearn_metric) : result Index :=
  functional ←r attr (_functional self);
  if functional : bool
  then Ok (NearestNeighbors (params self) sklearn_metric)
  else Ok (_init_multivariate_estimator self sklearn_metric).

(** [NeighborsRegressorMixin._functional_fit]. *)
Definition _functional_fit (self : Estimator) (X : Input) (y : T)
    : result Estimator :=
  if negb (bool_decide (input_len X = fd_n_samples y))
  then Raise (ValueError SampleCount)
  else
    self ←r
      (if is_precomputed (metric self) then
         e ←r _init_estimator self SkPrecomputed;
         e' ←r index_fit e X None;
         Ok (set_estimator_ self e')
       else
         match X with
         | XMatrix _ => Raise AttributeError
         | XGrid g =>
             let self := set_grid self g in
             sklearn_metric ←r
               (if negb (multivariate_metric self) then
                  metric0 ←r functional_metric (metric self);
                  grid0 ←r attr (_grid_points self);
                  Ok (SkVector (_to_multivariate_metric metric0 grid0))
                else Ok (SkAsGiven (metric self)));
             e ←r _init_estimator self sklearn_metric;
             X' ←r _transform_to_multivariate self (Some X);
             e' ←r index_fit e (default X X') None;
             Ok (set_estimator_ self e')
         end);
    Ok (set_y self y).

(** [NeighborsRegressorMixin.fit]. *)
Definition regressor_fit (self : Estimator) (X : Input) (y : Target)
    : result Estimator :=
  match y with
  | YFunctional y => _functional_fit (set_functional self true) X y
  | YArray y => fit _init_estimator (set_functional self false) X (Some y)
  end.

(** [NeighborsRegressorMixin._outlier_response]. *)
Definition _outlier_response (self : Estimator)
    (neighbors : list (list nat)) : result T :=
  match outlier_response self with
  | None =>
      let index :=
        where_true (map (λ n, bool_decide (length n = 0)) neighbors) in
      Raise (ValueError (NoNeighbors index))
  | Some r => Ok r
  end.

(** The body of the loop of [_functional_predict], for the items
    [(i, idx)] of [enumerate(neighbors[1:])] that are left. *)
Fixpoint predict_rest (self : Estimator) (neighbors : list (list nat))
    (distances : list loc) (items : list (nat * list nat)) (pred : T)
    : M T :=
  match items with
  | [] => mret pred
  | (i, idx) :: items' =>
      new_pred ←m
        (if bool_decide (length idx = 0)
         then lift (_outlier_response self neighbors)
         else
           y ←m lift (attr (_y self));
           d ←m lift (match distances !! (i + 1) with
                      | Some d => Ok d
                      | None => Raise IndexError
                      end);
           _prediction_from_neighbors self (fd_getitem y idx) d);
      pred' ←m lift (fd_concatenate pred new_pred);
      predict_rest self neighbors distances items' pred'
  end.

(** Evaluation in a store of its own: the arrays a call creates are
    not seen from outside. *)
Definition value_of {A} (r : result (A * heap)) : result A :=
  match r with Ok (a, _) => Ok a | Raise e => Raise e end.

Definition run {A} (m : M A) : result A := value_of (m ∅).

(** [NeighborsRegressorMixin._functional_predict].  The distance
    arrays the query gives back are new arrays, one per sample. *)
Definition _functional_predict (self : Estimator) (X : Input)
    : result T :=
  X' ←r _transform_to_multivariate self (Some X);
  '(distance_rows, neighbors) ←r _query self X';
  run (
    distances ←m alloc_all distance_rows;
    first ←m lift (match neighbors with
                   | n :: _ => Ok n
                   | [] => Raise IndexError
                   end);
    pred ←m
      (if bool_decide (length first = 0)
       then lift (_outlier_response self neighbors)
       else
         y ←m lift (attr (_y self));
         d ←m lift (match distances !! 0 with
                    | Some d => Ok d
                    | None => Raise IndexError
                    end);
         _prediction_from_neighbors self (fd_getitem y first) d);
    predict_rest self neighbors distances (enumerate (tail neighbors))
      pred).

(** [NeighborsRegressorMixin._multivariate_predict]. *)
Definition _multivariate_predict (self : Estimator) (X : Input)
    : result Y :=
  X' ←r _transform_to_multivariate self (Some X);
  e ←r attr (estimator_ self);
  index_predict e (default X X').

(** [NeighborsRegressorMixin.predict]. *)
Definition predict (self : Estimator) (X : Input)
    : result (T + Y) :=
  _ ←r _check_is_fitted self;
  functional ←r attr (_functional self);
  if functional : bool
  then y ←r _functional_predict self X; Ok (inl y)
  else y ←r _multivariate_predict self X; Ok (inr y).

(** *** The functional score *)

(** [scipy.integrate.simps(values, x=points)]. *)
Variable simps : list num → list num → num.

(** The default [score] of the regressor base class, for numeric
    targets. *)
Variable multivariate_score :
  Estimator → Input → Target → option (list num) → result num.

(** [a[..., 0]] on a data matrix: the first coordinate of every
    value. *)
Definition coordinate0 (g : FDataGrid) : result (list (list num)) :=
  if bool_decide (dim_codomain g = 0) then Raise IndexError
  else Ok (map (map (λ p, default zero (head p))) (data_matrix g)).

(** [g.grid_points[0]]. *)
Definition axis0 (g : FDataGrid) : result (list num) :=
  match grid_points g with
  | a :: _ => Ok a
  | [] => Raise IndexError
  end.

(** [a.T] for an array with [c] columns. *)
Definition transpose (c : nat) (a : list (list num)) : list (list num) :=
  map (λ j, map (λ r, default zero (r !! j)) a) (seq 0 c).

(** [t = a.T; t *= w]: the rows of the transposed view are multiplied
    by [w] entry by entry, and the array [a] behind the view changes
    with it. *)
Definition scale_through_transpose (c : nat) (w : list num)
    (a : list (list num)) : result (list (list num)) :=
  if negb (bool_decide (length w = length a))
  then Raise (ValueError Broadcast)
  else
    let a_t := transpose c a in
    let a_t := map (λ row, zip_with mul row w) a_t in
    Ok (transpose (length a) a_t).

(** [np.sum(a, axis=0)] for an array with [c] columns. *)
Definition sum_axis0 (c : nat) (a : list (list num)) : list num :=
  foldr (zip_with add) (replicate c zero) a.

(** [NeighborsRegressorMixin._functional_score]. *)
Definition _functional_score (self : Estimator) (X : Input) (y : T)
    (sample_weight : option (list num)) : result num :=
  if negb (bool_decide (fd_dim_codomain y = 1))
     || negb (bool_decide (fd_dim_domain y = 1))
  then Raise (ValueError ScoreMultivariate)
  else
    pred ←r predict self X;
    (* [y - pred] needs functional data on both sides *)
    pred ←r (match pred with
             | inl p => Ok p
             | inr _ => Raise TypeError
             end);
    u ←r fd_sub y pred;
    v ←r fd_sub y (fd_mean y);
    '(u, v) ←r
      (match fd_as_grid u with
       | Some gu => gv ←r attr (fd_as_grid v); Ok (gu, gv)
       | None => Ok (fd_to_grid u, fd_to_grid v)
       end);
    data_u ←r coordinate0 u;
    data_v ←r coordinate0 v;
    let data_u := map (map square) data_u in
    let data_v := map (map square) data_v in
    let columns_u := Grid.n_points (grid_points u) in
    let columns_v := Grid.n_points (grid_points v) in
    '(data_u, data_v) ←r
      (match sample_weight with
       | None => Ok (data_u, data_v)
       | Some sample_weight =>
           if negb (bool_decide (length sample_weight = fd_n_samples y))
           then Raise (ValueError WeightPerSample)
           else
             let sample_weight :=
               map (λ w, w / Num.sum sample_weight)%num sample_weight in
             data_u ←r scale_through_transpose columns_u
                         sample_weight data_u;
             data_v ←r scale_through_transpose columns_v
                         sample_weight data_v;
             Ok (data_u, data_v)
       end);
    let sum_u := sum_axis0 columns_u data_u in
    let sum_v := sum_axis0 columns_v data_v in
    points_u ←r axis0 u;
    let int_u := simps sum_u points_u in
    points_v ←r axis0 v;
    let int_v := simps sum_v points_v in
    Ok (one - int_u / int_v)%num.

(** [NeighborsRegressorMixin.score]. *)
Definition score (self : Estimator) (X : Input) (y : Target)
    (sample_weight : option (list num)) : result num :=
  functional ←r attr (_functional self);
  if functional : bool then
    match y with
    | YFunctional y => _functional_score self X y sample_weight
    | YArray _ => Raise AttributeError   (* an array has no dim_codomain *)
    end
  else multivariate_score self X y sample_weight.

End Regressor.
End Estimators.
End Neighbors.

(** ** The computations in the words of the specification

    Value-level counterparts of the array code above, without a store:
    what the specification says the weights, the per-sample prediction
    and the integrals of the score are. *)
Module Spec.
Section Spec.
Context {T : Type} `{!FData T}.

(** Number of exact matches among the distances. *)
Definition zero_count (d : list num) : nat :=
  length (filter (λ x, (x =? zero)%num = true) d).

(** The weights of the tie rule before renormalization: 1 for an exact
    match, 0 for every other neighbor. *)
Definition tie_weights (d : list num) : list num :=
  map (λ x, if (x =? zero)%num then one else zero) d.

(** Reciprocal-distance weights with the tie rule. *)
Definition distance_weights (d : list num) : list num :=
  if existsb (λ x, x =? zero)%num d
  then tie_weights d
  else map (λ x, one / x)%num d.

(** Renormalization to sum 1. *)
Definition normalize (w : list num) : list num :=
  map (λ x, x / Num.sum w)%num w.

(** The weighted average of the neighbor responses [Y] at distances
    [d]. *)
Definition weighted_average (policy : WeightsType) (Y : T) (d : list num)
    : T :=
  match policy with
  | Uniform => fd_mean Y
  | Distance => fd_sum (fd_mul Y (normalize (distance_weights d)))
  | Callable f => fd_sum (fd_mul Y (normalize (f d)))
  end.

(** The samples without a neighbor. *)
Definition outliers (neighbors : list (list nat)) : list nat :=
  where_true (map (λ n, bool_decide (length n = 0)) neighbors).

(** The prediction for one sample: the fallback (or the failure that
    names all outliers) without neighbors, the weighted average of the
    responses [y[idx]] otherwise. *)
Definition sample_prediction (policy : WeightsType) (fallback : option T)
    (y : T) (neighbors : list (list nat)) (idx : list nat) (d : list num)
    : result T :=
  match idx with
  | [] =>
      match fallback with
      | Some r => Ok r
      | None => Raise (ValueError (NoNeighbors (outliers neighbors)))
      end
  | _ => Ok (weighted_average policy (fd_getitem y idx) d)
  end.

(** Joining predictions one after the other, in the order given. *)
Fixpoint join (pred : T) (rest : list (list nat * list num))
    (one_sample : list nat → list num → result T) : result T :=
  match rest with
  | [] => Ok pred
  | (idx, d) :: rest' =>
      new_pred ←r one_sample idx d;
      pred' ←r fd_concatenate pred new_pred;
      join pred' rest' one_sample
  end.

(** The prediction for the samples [items], each given by the indices
    and the distances of its neighbors: the per-sample predictions,
    joined in the order of the samples. *)
Definition predict_items (policy : WeightsType) (fallback : option T)
    (y : T) (neighbors : list (list nat))
    (items : list (list nat * list num)) : result T :=
  match items with
  | [] => Raise IndexError
  | (idx, d) :: rest =>
      pred ←r sample_prediction policy fallback y neighbors idx d;
      join pred rest (sample_prediction policy fallback y neighbors)
  end.

(** The functional prediction for the query result
    [(distances, neighbors)]. *)
Definition functional_prediction (policy : WeightsType)
    (fallback : option T) (y : T)
    (distances : list (list num)) (neighbors : list (list nat))
    : result T :=
  predict_items policy fallback y neighbors (zip neighbors distances).

(** The function [t ↦ Σ_i w_i · g_i(t)²] on the [c] points of the
    grid; without weights every [w_i] is 1. *)
Definition weighted_square_sum (c : nat) (w : option (list num))
    (values : list (list num)) : list num :=
  let squares := map (map square) values in
  let weighted :=
    match w with
    | None => squares
    | Some w => zip_with (λ wi row, map (mul wi) row) (normalize w) squares
    end in
  foldr (zip_with add) (replicate c zero) weighted.

(** The values of a grid with one value per point. *)
Definition values (g : FDataGrid) : list (list num) :=
  map (map (λ p, default zero (head p))) (data_matrix g).

(** A grid over the one axis [points], with a value for every point of
    every sample. *)
Definition on_axis (g : FDataGrid) (points : list num) : Prop :=
  dim_codomain g ≠ 0
  ∧ grid_points g = [points]
  ∧ Forall (λ sample, length sample = length points) (data_matrix g).

(** Sample weights that can be renormalized: finite, with a sum that is
    not zero. *)
Definition weights_finite (w : option (list num)) : Prop :=
  match w with
  | None => True
  | Some w => Forall (λ x, is_fin x = true) w ∧ Num.sum w ≠ zero
  end.

(** The integral over the axis [points] of the weighted sum of squares
    of the values of [g]. *)
Definition square_integral (simps : list num → list num → num)
    (w : option (list num)) (g : FDataGrid) (points : list num) : num :=
  simps (weighted_square_sum (length points) w (values g)) points.

End Spec.
End Spec.

(** ** Example collaborators

    Small concrete instances of the external interfaces, used to run the
    model on concrete inputs. *)
Module Examples.

(** The monomial basis [1, t, ..., t^(n-1)]; only the number of basis
    functions matters here. *)
Record Monomial : Type := MkMonomial { monomial_n_basis : nat }.

Global Instance Monomial_eq_dec : EqDecision Monomial.
Proof. solve_decision. Defined.

Definition pointwise (f : num → num → num) (a b : array2) : array2 :=
  Array2 (zip_with (zip_with f) (rows a) (rows b)) (ncols a).

(** The [j]-th derivative coefficient comes from coefficient [j + 1]
    times [j + 1]. *)
Definition derive_row (r : list num) : list num :=
  zip_with (λ j c, of_nat j * c)%num (seq 1 (length r - 1)) (tail r).

Definition on_first (f : num → num) (r : list num) : list num :=
  match r with [] => [] | c :: r' => f c :: r' end.

Global Program Instance Monomial_basis : BasisSystem Monomial num := {
  n_basis := monomial_n_basis;
  basis_dim_domain := λ _, 1;
  basis_dim_codomain := λ _, 1;
  basis_eqb := λ a b, bool_decide (a = b);
  _derivative_basis_and_coefs := λ b c order,
    Ok (MkMonomial (monomial_n_basis b - Z.to_nat order),
        Array2 (map (Nat.iter (Z.to_nat order) derive_row) (rows c))
               (ncols c - Z.to_nat order));
  _add_same_basis := λ b c1 c2, Ok (b, pointwise add c1 c2);
  _add_constant := λ b c k,
    Ok (b, Array2 (map (on_first (λ x, x + k)%num) (rows c)) (ncols c));
  _sub_same_basis := λ b c1 c2, Ok (b, pointwise sub c1 c2);
  _sub_constant := λ b c k,
    Ok (b, Array2 (map (on_first (λ x, x - k)%num) (rows c)) (ncols c));
}.
Next Obligation. intros b. by apply bool_decide_eq_true_2. Qed.

(** An index that keeps what it was built and fitted with. *)
Record ListIndex (Y : Type) : Type := MkListIndex {
  ix_metric : sklearn_metric;
  ix_X : option Input;
  ix_y : option Y;
}.
Arguments MkListIndex {Y} _ _ _.
Arguments ix_metric {Y} _.
Arguments ix_X {Y} _.
Arguments ix_y {Y} _.

Definition new_index {Y} (_ : unit) (m : sklearn_metric) : ListIndex Y :=
  MkListIndex m None None.

Definition list_index_fit {Y} (e : ListIndex Y) (X : Input) (y : option Y)
    : result (ListIndex Y) :=
  Ok (MkListIndex (ix_metric e) (Some X) y).

(** Position of the first smallest entry. *)
Fixpoint argmin_from (i best : nat) (least : num) (l : list num) : nat :=
  match l with
  | [] => best
  | x :: l' =>
      if ltb x least then argmin_from (S i) i x l'
      else argmin_from (S i) best least l'
  end.

Definition argmin (l : list num) : nat :=
  match l with
  | [] => 0
  | x :: l' => argmin_from 1 0 x l'
  end.

(** [predict] of the example index: the label of the nearest training
    sample, by brute force.  In precomputed mode the query is the
    matrix of distances to the training samples. *)
Definition list_index_predict (e : ListIndex (list nat)) (X : Input)
    : result (list nat) :=
  match ix_metric e, ix_X e, ix_y e, X with
  | SkPrecomputed, Some _, Some labels, XMatrix D =>
      Ok (map (λ row, default 0 (labels !! argmin row)) D)
  | SkVector f, Some (XMatrix train), Some labels, XMatrix Q =>
      Ok (map (λ q, default 0 (labels !! argmin (map (f q) train))) Q)
  | _, Some _, Some _, _ => Raise TypeError
  | _, _, _, _ => Raise NotFittedError
  end.

(** Composite Simpson rule over consecutive triples of points. *)
Fixpoint simpson (values points : list num) : num :=
  match values, points with
  | f0 :: f1 :: ((f2 :: _) as values''),
    x0 :: _ :: ((x2 :: _) as points'') =>
      ((x2 - x0) / of_Z 6 * (f0 + of_Z 4 * f1 + f2)
       + simpson values'' points'')%num
  | _, _ => zero
  end.

(** The example of the class docstring: one sample with coefficients
    [1, 1, 3, 0.5] over four monomials. *)
Definition docstring_basis : Monomial := MkMonomial 4.
Definition docstring_coefficients : list num :=
  [of_Z 1; of_Z 1; of_Z 3; half].
Definition docstring_sample : Basis.FDataBasis Monomial :=
  Basis.MkFDataBasis docstring_basis
    (Array2 [docstring_coefficients] 4) no_meta.

(** A missing value, as [FDataBasisDType._na_repr] builds it: every
    coefficient is NaN. *)
Definition na_sample : Basis.FDataBasis Monomial :=
  Basis.MkFDataBasis (MkMonomial 2) (Array2 [[NaN; NaN]] 2) no_meta.

(** Two samples, the second with one NaN among its coefficients. *)
Definition partly_nan : Basis.FDataBasis Monomial :=
  Basis.MkFDataBasis (MkMonomial 2)
    (Array2 [[NaN; NaN]; [of_Z 1; NaN]] 2) no_meta.

(** [_copy_op] of the examples: a copy of the left operand with the
    new basis and coefficients. *)
Definition copy_left (self : Basis.FDataBasis Monomial)
    (other : Basis.operand (B := Monomial) (C := num))
    (b : Monomial) (c : array2) : result (Basis.FDataBasis Monomial) :=
  Basis.copy self (Some b) (Some (A2 c)) no_meta.

(** A refit that is never available. *)
Definition no_refit (self : Basis.FDataBasis Monomial) (b : Monomial)
    : result (Basis.FDataBasis Monomial) :=
  Raise TypeError.

(** Grids over the points 0, 1, 2 with one value per point. *)
Definition axis : list num := [of_Z 0; of_Z 1; of_Z 2].

Definition curve (a b c : Z) : list (list num) :=
  [[of_Z a]; [of_Z b]; [of_Z c]].

Definition curves (samples : list (list (list num))) : FDataGrid :=
  MkFDataGrid [axis] 1 samples.

(** Training inputs and functional responses, three samples each. *)
Definition inputs : FDataGrid :=
  curves [curve 0 0 0; curve 0 1 0; curve 2 2 2].
Definition responses : FDataGrid :=
  curves [curve 1 2 3; curve 3 4 5; curve 5 6 7].
Definition labels : list nat := [7; 8; 8].

(** A response for the samples without neighbors. *)
Definition fallback : FDataGrid := curves [curve 9 9 9].

(** The discrete metric: 0 between equal samples, 1 otherwise. *)
Definition discrete (g h : FDataGrid) : num :=
  if bool_decide (data_matrix g = data_matrix h) then zero else one.

(** Metrics without a fit step. *)
Definition no_fit_step (f : FDataGrid → FDataGrid → num) (_ : FDataGrid)
    : FDataGrid → FDataGrid → num := f.

(** A query that answers with the given distances and neighbors. *)
Definition fixed_query {E : Type} (D : list (list num))
    (N : list (list nat)) (_ : E) (_ : option Input)
    : result (list (list num) * list (list nat)) :=
  Ok (D, N).

Abbreviation example_estimator :=
  (Neighbors.Estimator (T := FDataGrid) (P := unit)
     (Index := ListIndex (list nat))).

Definition configured (w : WeightsType) (precompute multivariate : bool)
    (outlier : option FDataGrid) : example_estimator :=
  Neighbors.MkEstimator
    (Neighbors.MkConfig w (MetricCallable discrete) tt precompute
       multivariate outlier)
    Neighbors.unfitted.

(** The estimator after [fit], or as it was when [fit] failed. *)
Definition after_fit (r : result example_estimator)
    (before : example_estimator) : example_estimator :=
  match r with Ok fitted => fitted | Raise _ => before end.

(** A regressor fitted on the inputs [X] and the functional responses
    [y]. *)
Definition regressor_on (X y : FDataGrid) (w : WeightsType)
    (outlier : option FDataGrid) : example_estimator :=
  let before := configured w false false outlier in
  after_fit
    (Neighbors.regressor_fit (Y := list nat) discrete no_fit_step new_index
       list_index_fit (λ self m, new_index tt m) before (XGrid X)
       (Neighbors.YFunctional y))
    before.

(** A regressor fitted on [inputs] and [responses]. *)
Definition regressor : WeightsType → option FDataGrid → example_estimator :=
  regressor_on inputs responses.

(** One training sample and its response. *)
Definition single_input : FDataGrid := curves [curve 0 0 0].
Definition single_response : FDataGrid := curves [curve 1 2 3].

(** A response with two values per point. *)
Definition vector_valued : FDataGrid :=
  MkFDataGrid [axis] 2 [[[n1; n1]; [n2; n2]; [n5; n5]]].

(** The answer of a query that finds each of three samples as its own
    only neighbor. *)
Definition D_self : list (list num) := [[n0]; [n0]; [n0]].
Definition N_self : list (list nat) := [[0]; [1]; [2]].

(** A classifier fitted on [inputs] and [labels]. *)
Definition classifier (precompute multivariate : bool)
    : result example_estimator :=
  Neighbors.classifier_fit discrete no_fit_step list_index_fit
    (λ self m, Ok (new_index tt m))
    (configured Uniform precompute multivariate None) (XGrid inputs) labels.

(** A store with one array of distances, with and without exact
    matches. *)
Definition tied : heap := {[ 0 := [n0; n0; n5] ]}.
Definition apart : heap := {[ 0 := [n2; n5] ]}.

(** The answer of a query about three samples: the first has two
    neighbors at distance 0, the second none, the third one at distance
    5. *)
Definition D3 : list (list num) := [[n0; n0]; []; [n5]].
Definition N3 : list (list nat) := [[0; 1]; []; [2]].

End Examples.

(** ** Further operations of FDataBasis *)

(** The outcome of a method that raises a [ValueError] of its own: [E]
    holds what the message of that error reports. *)
Inductive outcome (E A : Type) : Type :=
  | Done (a : A)
  | Fails (e : exn)
  | FailsWith (v : E).
Arguments Done {E A} a.
Arguments Fails {E A} e.
Arguments FailsWith {E A} v.

Definition of_result' {E A} (r : result A) : outcome E A :=
  match r with Ok a => Done a | Raise e => Fails e end.

(** Python's [slice(start, stop).indices(n)] for a step of 1: a missing
    bound is the end it stands for, a negative bound counts from the back,
    and both are clamped to [0..n]. *)
Definition clamp (n : nat) (z : Z) : nat :=
  if (z <? 0)%Z then Z.to_nat (Z.max (z + Z.of_nat n) 0)
  else Nat.min (Z.to_nat z) n.

Definition slice_bounds (n : nat) (start stop : option Z) : nat * nat :=
  (from_option (clamp n) 0 start, from_option (clamp n) n stop).

(** [l[start:stop]]. *)
Definition slice {A} (l : list A) (start stop : option Z) : list A :=
  let '(a, b) := slice_bounds (length l) start stop in
  take (b - a) (drop a l).

(** [np.sum(a, axis=0)] and [np.mean(a, axis=0)] of a matrix. *)
Definition column_sums (a : array2) : list num :=
  foldr (zip_with add) (replicate (ncols a) zero) (rows a).

Definition column_means (a : array2) : list num :=
  map (λ s, s / of_nat (length (rows a)))%num (column_sums a).

(** Every row of the matrix has [ncols] entries, as in a NumPy array. *)
Definition rectangular (a : array2) : Prop :=
  Forall (λ r, length r = ncols a) (rows a).

Module BasisOps.
Import Basis.
Section Ops.
Context {B C : Type} `{!BasisSystem B C}.

(** What [__getitem__] is given: an integer, or a slice [start:stop]. *)
Inductive key : Type :=
  | KInt (z : Z)
  | KSlice (start stop : option Z).

(** [range(n)[key]] for a negative [key]. *)
Definition range_getitem (n : nat) (z : Z) : result Z :=
  if (z + Z.of_nat n <? 0)%Z then Raise IndexError
  else Ok (z + Z.of_nat n)%Z.

Definition with_sample_names (names : option (list string)) : FDataMeta :=
  Meta None None None names None.

(** [FDataBasis.__getitem__]. *)
Definition __getitem__ (self : FDataBasis B) (key : key)
    : result (FDataBasis B) :=
  match key with
  | KInt z =>
      key ←r (if (z <? 0)%Z then range_getitem (n_samples self) z
              else Ok z);
      copy self None
        (Some (A2 (Array2 (slice (rows (coefficients self))
                             (Some key) (Some (key + 1)%Z))
                     (ncols (coefficients self)))))
        (with_sample_names
           ((λ names : list string,
               slice names (Some key) (Some (key + 1)%Z))
              <$> sample_names (meta self)))
  | KSlice start stop =>
      copy self None
        (Some (A2 (Array2 (slice (rows (coefficients self)) start stop)
                     (ncols (coefficients self)))))
        (with_sample_names
           ((λ names : list string, slice names start stop)
              <$> sample_names (meta self)))
  end.

(** [np.average(a, weights=w, axis=0)], from NumPy. *)
Variable np_average : array2 → list num → result (list num).

(** [FDataBasis.mean]. *)
Definition mean (self : FDataBasis B) (weights : option (list num))
    : result (FDataBasis B) :=
  match weights with
  | Some w =>
      average ←r np_average (coefficients self) w;
      copy self None (Some (A2 (Array2 [average] (length average))))
        (with_sample_names (Some ["mean"%string]))
  | None =>
      copy self None (Some (A1 (column_means (coefficients self))))
        (with_sample_names (Some ["mean"%string]))
  end.

(** The other side of [==]: an [FDataBasis], or a value of another
    type. *)
Inductive eq_operand : Type :=
  | SameType (other : FDataBasis B)
  | OtherType.

(** What the [ValueError] of [__eq__] reports: the two lengths. *)
Record different_lengths : Type := DifferentLengths {
  len_self : nat;
  len_other : nat;
}.

(** [FDataBasisDType]: the dtype of a basis representation is made from
    its basis each time it is asked for. *)
Record FDataBasisDType : Type := MkDType { dtype_basis : B }.

Definition dtype (self : FDataBasis B) : FDataBasisDType :=
  MkDType (basis self).

(** What a dtype is compared with. *)
Inductive dtype_operand : Type :=
  | DString (s : string)
  | DItself
  | DDType (other : FDataBasisDType)
  | DOther.

(** [FDataBasisDType.__eq__]; the name of the dtype is ['FDataBasis']. *)
Definition dtype_eq (self : FDataBasisDType) (other : dtype_operand) : bool :=
  match other with
  | DString s => bool_decide (s = "FDataBasis"%string)
  | DItself => true
  | DDType o => basis_eqb (dtype_basis self) (dtype_basis o)
  | DOther => false
  end.

(** [FDataBasis.__eq__]; the two dtypes are two objects, and [!=] is the
    negation of [FDataBasisDType.__eq__].  The comparison
    [np.all(a == b, axis=1)] is that of two matrices of one shape, which
    two constructed instances of the same length over bases with the
    same number of functions have. *)
Definition __eq__ (self : FDataBasis B) (other : eq_operand)
    : outcome different_lengths (list bool) :=
  match other with
  | OtherType => Fails TypeError
  | SameType o =>
      if negb (dtype_eq (dtype self) (DDType (dtype o)))
      then Fails TypeError
      else if negb (bool_decide (n_samples self = n_samples o))
      then FailsWith (DifferentLengths (n_samples self) (n_samples o))
      else Done (zip_with (λ r r', forallb2 eqb r r')
                   (rows (coefficients self)) (rows (coefficients o)))
  end.

(** [FDataBasisDType._na_repr]. *)
Definition _na_repr (self : FDataBasisDType) : result (FDataBasis B) :=
  __init__ (dtype_basis self)
    (A2 (Array2 [replicate (n_basis (dtype_basis self)) NaN]
           (n_basis (dtype_basis self))))
    no_meta.

(** [FDataBasis.concatenate] with [as_coordinates=True]: the guard comes
    before anything else. *)
Definition concatenate_as_coordinates (self : FDataBasis B)
    (others : list (FDataBasis B)) : op_result (FDataBasis B) :=
  NotImplemented.

End Ops.
End BasisOps.

(** ** Shapes of grids *)

(** A grid whose samples hold, at every point of the grid, a value with
    [dim_codomain] coordinates: the shape of its [data_matrix]. *)
Definition well_shaped (g : FDataGrid) : Prop :=
  Forall (λ sample,
            length sample = Grid.n_points (grid_points g)
            ∧ Forall (λ value, length value = dim_codomain g) sample)
    (data_matrix g).

(** ** The neighbor queries *)

Module Queries.
Import Neighbors.
Section Queries.
(** [A]: the arguments handed on untouched ([n_neighbors] or [radius],
    with [return_distance] or [mode]).  [R]: what the index answers. *)
Context {T P Index A R : Type}.

(** The four queries of the index of [sklearn.neighbors]. *)
Variable index_kneighbors : Index → option Input → A → result R.
Variable index_kneighbors_graph : Index → option Input → A → result R.
Variable index_radius_neighbors : Index → option Input → A → result R.
Variable index_radius_neighbors_graph :
  Index → option Input → A → result R.

(** [KNeighborsMixin.kneighbors]. *)
Definition kneighbors
    (self : Estimator (T := T) (P := P) (Index := Index))
    (X : option Input) (args : A) : result R :=
  e ←r _check_is_fitted self;
  X ←r _transform_to_multivariate self X;
  index_kneighbors e X args.

(** [KNeighborsMixin.kneighbors_graph]. *)
Definition kneighbors_graph
    (self : Estimator (T := T) (P := P) (Index := Index))
    (X : option Input) (args : A) : result R :=
  e ←r _check_is_fitted self;
  X ←r _transform_to_multivariate self X;
  index_kneighbors_graph e X args.

(** [RadiusNeighborsMixin.radius_neighbors]. *)
Definition radius_neighbors
    (self : Estimator (T := T) (P := P) (Index := Index))
    (X : option Input) (args : A) : result R :=
  e ←r _check_is_fitted self;
  X ←r _transform_to_multivariate self X;
  index_radius_neighbors e X args.

(** [RadiusNeighborsMixin.radius_neighbors_graph]. *)
Definition radius_neighbors_graph
    (self : Estimator (T := T) (P := P) (Index := Index))
    (X : option Input) (args : A) : result R :=
  e ←r _check_is_fitted self;
  X ←r _transform_to_multivariate self X;
  index_radius_neighbors_graph e X args.

End Queries.
End Queries.

(** ** The phase-plane plot *)

Module PhasePlane.

(** One pair of axes: the lines drawn on it, each the list of its
    abscissas and the list of its ordinates, and the two labels. *)
Record Axes : Type := MkAxes {
  lines : list (list num * list num);
  xlabel : option string;
  ylabel : option string;
}.

(** A figure with its title and its axes. *)
Record Figure : Type := MkFigure {
  suptitle : option string;
  axes : list Axes;
}.

(** The [ValueError] of [plot]: "Error in data arguments". *)
Inductive plot_error : Type := DataArguments.

(** [axes[0]]. *)
Definition first_axes (fig : Figure) : result Axes :=
  match axes fig with
  | a :: _ => Ok a
  | [] => Raise IndexError
  end.

(** The figure after a change of [axes[0]], an object the figure
    holds. *)
Definition with_first_axes (fig : Figure) (a : Axes) : Figure :=
  MkFigure (suptitle fig) (a :: tail (axes fig)).

(** [sample[:, j]] where every value has the coordinate [j]. *)
Definition column (j : nat) (sample : list (list num)) : list num :=
  map (λ value, default zero (value !! j)) sample.

Section Plot.
(** [D]: the functional data, in one representation.  [Chart]: the
    arguments [chart], [fig] and [axes]. *)
Context {D Chart : Type}.

(** The attributes of the data the plot reads, and [concatenate] called
    with [as_coordinates=True]; [data_matrix] is an attribute of some
    representations only. *)
Variable dim_domain : D → nat.
Variable dim_codomain : D → nat.
Variable concatenate_as_coordinates : D → D → op_result D.
Variable data_matrix : D → result (list (list (list num))).

(** [_get_figure_and_axes] and [_set_figure_layout] with [dim=2] and
    [n_axes=1], helpers of the visualization package. *)
Variable _get_figure_and_axes : Chart → result Figure.
Variable _set_figure_layout : Figure → result Figure.

Record PhasePlanePlot : Type := MkPhasePlanePlot {
  fdata1 : D;
  fdata2 : option D;
}.

(** What [fd_final] holds: data, or the value [NotImplemented] that
    [concatenate] gave back. *)
Inductive final : Type :=
  | FinalData (d : D)
  | FinalNotImplemented.

(** The first half of [plot]: the choice of [fd_final]. *)
Definition fd_final (self : PhasePlanePlot) : outcome plot_error final :=
  match fdata2 self with
  | Some second =>
      if bool_decide (dim_domain (fdata1 self) = dim_domain second)
         && bool_decide (dim_codomain (fdata1 self) = dim_codomain second)
         && bool_decide (dim_domain (fdata1 self) = 1)
         && bool_decide (dim_codomain (fdata1 self) = 1)
      then
        match concatenate_as_coordinates (fdata1 self) second with
        | Handled d => Done (FinalData d)
        | NotImplemented => Done FinalNotImplemented
        | Failed e => Fails e
        end
      else FailsWith DataArguments
  | None => Done (FinalData (fdata1 self))
  end.

(** [PhasePlanePlot.plot]: the figure it returns. *)
Definition plot (self : PhasePlanePlot) (chart : Chart)
    : outcome plot_error Figure :=
  match _get_figure_and_axes chart with
  | Raise e => Fails e
  | Ok fig =>
      match fd_final self with
      | Fails e => Fails e
      | FailsWith v => FailsWith v
      | Done FinalNotImplemented =>
          (* the value [NotImplemented] has no [dim_domain] *)
          Fails AttributeError
      | Done (FinalData d) =>
          if bool_decide (dim_domain d = 1)
             && bool_decide (dim_codomain d = 2)
          then
            of_result' (
              fig ←r _set_figure_layout fig;
              a ←r first_axes fig;
              samples ←r data_matrix d;
              sample ←r (match samples with
                         | s :: _ => Ok s
                         | [] => Raise IndexError
                         end);
              let a := MkAxes
                         (lines a ++ [(column 0 sample, column 1 sample)])
                         (Some "Function 1"%string)
                         (Some "Function 2"%string) in
              Ok (MkFigure (Some "Phase-Plane Plot"%string)
                    (axes (with_first_axes fig a))))
          else FailsWith DataArguments
      end
  end.

End Plot.

(** The plot of data in the basis representation: [concatenate] is
    [FDataBasis.concatenate], and [data_matrix] is whatever the base
    class makes of the attribute. *)
Section OfBasis.
Context {B C : Type} `{!BasisSystem B C} {Chart : Type}.
Variable basis_data_matrix :
  Basis.FDataBasis B → result (list (list (list num))).
Variable _get_figure_and_axes : Chart → result Figure.
Variable _set_figure_layout : Figure → result Figure.

Definition plot_basis
    : PhasePlanePlot (D := Basis.FDataBasis B) → Chart
      → outcome plot_error Figure :=
  plot (λ fd, basis_dim_domain (Basis.basis fd))
    (λ fd, basis_dim_codomain (Basis.basis fd))
    (λ fd other, BasisOps.concatenate_as_coordinates fd [other])
    basis_data_matrix _get_figure_and_axes _set_figure_layout.

End OfBasis.

(** The plot of grids; [FDataGrid.concatenate] with
    [as_coordinates=True] belongs to the grid representation. *)
Section OfGrid.
Context {Chart : Type}.
Variable grid_concatenate_as_coordinates :
  FDataGrid → FDataGrid → op_result FDataGrid.
Variable _get_figure_and_axes : Chart → result Figure.
Variable _set_figure_layout : Figure → result Figure.

Definition plot_grid
    : PhasePlanePlot (D := FDataGrid) → Chart
      → outcome plot_error Figure :=
  plot Grid.dim_domain dim_codomain grid_concatenate_as_coordinates
    (λ g, Ok (data_matrix g)) _get_figure_and_axes
    _set_figure_layout.

End OfGrid.
End PhasePlane.

(** ** Further examples *)

Module MoreExamples.
Import Examples.

(** The example of the docstring of [mean]: two samples over four
    monomials, here with names. *)
Definition two_samples : Basis.FDataBasis Monomial :=
  Basis.MkFDataBasis (MkMonomial 4)
    (Array2 [[half; of_Z 1; of_Z 2; half];
             [(of_Z 3 / of_Z 2)%num; of_Z 1; of_Z 4; half]] 4)
    (Meta None None None (Some ["first"; "second"]%string) None).

(** An average of the rows under weights, one weight per row. *)
Definition row_average (a : array2) (w : list num) : result (list num) :=
  if bool_decide (length w = length (rows a))
  then Ok (map (λ s, s / Num.sum w)%num
             (column_sums
                (Array2 (zip_with (λ wi row, map (mul wi) row) w (rows a))
                   (ncols a))))
  else Raise (ValueError Broadcast).

(** A query of the example index: the distances from every query row to
    every training row, by brute force; in precomputed mode the query is
    that matrix already. *)
Definition list_index_distances {Y : Type} (e : ListIndex Y)
    (X : option Input) (_ : unit) : result (list (list num)) :=
  match ix_metric e, ix_X e, X with
  | SkVector f, Some (XMatrix train), Some (XMatrix Q) =>
      Ok (map (λ q, map (f q) train) Q)
  | SkPrecomputed, Some _, Some (XMatrix D) => Ok D
  | _, Some _, _ => Raise TypeError
  | _, None, _ => Raise NotFittedError
  end.

(** A query that finds all three training samples for each of three
    query samples. *)
Definition D_all : list (list num) :=
  [[n1; n2; n5]; [n1; n2; n5]; [n1; n2; n5]].
Definition N_all : list (list nat) := [[0; 1; 2]; [0; 1; 2]; [0; 1; 2]].

(** The pointwise mean of [responses]. *)
Definition mean_curve : list (list num) := curve 3 4 5.

(** A figure with one empty pair of axes, and figure helpers that hand
    it out and leave the layout as it is. *)
Definition blank : PhasePlane.Figure :=
  PhasePlane.MkFigure None [PhasePlane.MkAxes [] None None].
Definition new_figure (_ : unit) : result PhasePlane.Figure := Ok blank.
Definition same_layout (fig : PhasePlane.Figure)
    : result PhasePlane.Figure := Ok fig.

(** Two grids over the same points joined value by value. *)
Definition pair_coordinates (g h : FDataGrid) : op_result FDataGrid :=
  Handled
    (MkFDataGrid (grid_points g) (dim_codomain g + dim_codomain h)
       (zip_with (zip_with app) (data_matrix g) (data_matrix h))).

(** A representation without the attribute [data_matrix]. *)
Definition no_data_matrix (fd : Basis.FDataBasis Monomial)
    : result (list (list (list num))) :=
  Raise AttributeError.

End MoreExamples.

(** * Properties *)

(** ** Numbers *)

Lemma eqb_refl_not_nan (x : num) : (x =? x)%num = negb (isnan x).
Proof. destruct x; simpl; try done; by apply bool_decide_eq_true_2. Qed.

Lemma eqb_eq (x y : num) : (x =? y)%num = true → x = y.
Proof.
  destruct x, y; simpl; try done; intros H%bool_decide_eq_true; by subst.
Qed.

Lemma eqb_zero_iff (x : num) : (x =? zero)%num = true ↔ x = zero.
Proof.
  split; [apply eqb_eq|]. intros ->. by apply bool_decide_eq_true_2.
Qed.

Lemma forallb2_refl {A} (f : A → A → bool) (g : A → bool) (l : list A) :
  (∀ x, f x x = g x) → forallb2 f l l = forallb g l.
Proof.
  intros Hfg. induction l as [|x l IH]; simpl; [done|]. by rewrite Hfg, IH.
Qed.

(** An array equals itself exactly when it holds no NaN. *)
Lemma array_equal_refl (a : array2) : array_equal a a = nan_free a.
Proof.
  unfold array_equal, nan_free.
  rewrite !bool_decide_eq_true_2 by done. simpl.
  apply forallb2_refl. intros r. apply forallb2_refl, eqb_refl_not_nan.
Qed.

(** ** FDataBasis *)

Module BasisFacts.
Import Basis.
Section Facts.
Context {B C : Type} `{!BasisSystem B C}.
Implicit Types (self fd : FDataBasis B) (b : B).

Lemma FData_init_inv n d c m m' :
  FData_init n d c m = Ok m' → m' = m ∧ FData_init n d c m' = Ok m'.
Proof.
  unfold FData_init. destruct (_ && _) eqn:E; [|done].
  intros [= <-]. by rewrite E.
Qed.

Lemma init_inv b c m fd :
  __init__ b c m = Ok fd →
  basis fd = b ∧ coefficients fd = atleast_2d c
  ∧ ncols (atleast_2d c) = n_basis b
  ∧ FData_init (length (rows (atleast_2d c))) (basis_dim_domain b)
      (basis_dim_codomain b) (meta fd) = Ok (meta fd).
Proof.
  unfold __init__, _int_to_real.
  case_bool_decide as Hn; simpl; [|done].
  destruct (FData_init _ _ _ m) as [m'|] eqn:Hm; simpl; [|done].
  intros [= <-]. simpl. by apply FData_init_inv in Hm as [_ Hm].
Qed.

Lemma init_mismatch b c m :
  ncols (atleast_2d c) ≠ n_basis b →
  __init__ b c m = Raise (ValueError CoefficientsLength).
Proof.
  intros Hn. unfold __init__, _int_to_real. by case_bool_decide.
Qed.

Lemma init_no_meta b c :
  ncols (atleast_2d c) = n_basis b →
  __init__ b c no_meta = Ok (MkFDataBasis b (atleast_2d c) no_meta).
Proof.
  intros Hn. unfold __init__, _int_to_real. by case_bool_decide.
Qed.

Lemma or_self_None {A} (x : option A) : or_self None x = x.
Proof. by destruct x. Qed.

(** Copying a constructed instance without overriding anything gives an
    instance with the same fields. *)
Lemma copy_constructed fd :
  constructed fd → copy fd None None no_meta = Ok fd.
Proof.
  intros (b & c & m & Hinit).
  destruct (init_inv _ _ _ _ Hinit) as (Hb & Hc & Hn & Hm).
  destruct fd as [fb fc [n1 n2 n3 n4 n5]]; simpl in *. subst fb fc.
  unfold copy, deepcopy, no_meta; simpl.
  unfold __init__, _int_to_real; simpl.
  rewrite bool_decide_eq_true_2 by done. simpl. by rewrite Hm.
Qed.

Lemma equals_self fd : equals fd fd = nan_free (coefficients fd).
Proof.
  unfold equals, FData_equals.
  rewrite bool_decide_eq_true_2 by done.
  by rewrite basis_eqb_refl, array_equal_refl.
Qed.

(** C4.  Construction goes through only when the coefficient array,
    a vector being promoted to a matrix of one row, has as many columns
    as the basis has functions: with another number of columns it
    raises the [ValueError] of the constructor; with the right number
    (and no metadata to check) it returns an instance; and whatever
    instance it returns has [coefficients.shape[1] == basis.n_basis]. *)
Theorem init_column_count b (c : array_like) (m : FDataMeta) :
  (∀ fd, __init__ b c m = Ok fd →
         ncols (atleast_2d c) = n_basis b
         ∧ ncols (coefficients fd) = n_basis (basis fd))
  ∧ (ncols (atleast_2d c) ≠ n_basis b →
     __init__ b c m = Raise (ValueError CoefficientsLength))
  ∧ (ncols (atleast_2d c) = n_basis b →
     ∃ fd, __init__ b c no_meta = Ok fd)
  ∧ (∀ v, c = A1 v → atleast_2d c = Array2 [v] (length v)).
Proof.
  repeat split.
  - by apply init_inv in H as (_ & _ & ? & _).
  - apply init_inv in H as (-> & -> & ? & _). done.
  - apply init_mismatch.
  - intros Hn. eexists. by apply init_no_meta.
  - by intros v ->.
Qed.

(** C9.  [isna] gives one boolean per sample, and the boolean of
    sample [i] is [True] exactly when every coefficient of row [i] is
    NaN; a row with a coefficient that is not NaN gives [False]. *)
Theorem isna_all_nan fd :
  length (isna fd) = n_samples fd
  ∧ ∀ i row, rows (coefficients fd) !! i = Some row →
      (isna fd !! i = Some true ↔ ∀ x, x ∈ row → x = NaN)
      ∧ (isna fd !! i = Some false ↔ ∃ x, x ∈ row ∧ x ≠ NaN).
Proof.
  split; [apply length_map|].
  intros i row Hrow. unfold isna.
  assert (map (forallb isnan) (rows (coefficients fd)) !! i
          = Some (forallb isnan row)) as ->.
  { change (map ?f ?l) with (f <$> l). by rewrite list_lookup_fmap, Hrow. }
  assert (forallb isnan row = true ↔ ∀ x, x ∈ row → x = NaN) as Hall.
  { rewrite forallb_forall. split; intros H x Hx.
    - apply list_elem_of_In, H in Hx. by destruct x.
    - apply list_elem_of_In, H in Hx. by subst. }
  split.
  - split; [intros [= H]; by apply Hall | intros H; f_equal; by apply Hall].
  - split.
    + intros [= H].
      destruct (decide (Exists (λ x, x ≠ NaN) row)) as [He|Hne].
      * by apply Exists_exists in He.
      * exfalso. apply not_Exists_Forall in Hne; [|solve_decision].
        rewrite Forall_forall in Hne.
        assert (forallb isnan row = true) as Ht; [|congruence].
        apply Hall. intros x Hx. specialize (Hne x Hx). simpl in Hne.
        by destruct (decide (x = NaN)).
    + intros (x & Hx & Hnan). f_equal.
      destruct (forallb isnan row) eqn:E; [|done].
      exfalso. apply Hnan. by eapply Hall.
Qed.

(** C6, as the code has it.  A negative order raises the [ValueError]
    of [derivative].  Order 0 of a constructed instance returns a copy
    with the same basis and the same coefficient matrix; [equals]
    between the copy and the original holds exactly when no
    coefficient is NaN, in particular whenever the coefficients are
    free of NaN.  A positive order hands the coefficients to the
    derivative rule of the basis and builds the result from what the
    rule returns. *)
Theorem derivative_cases fd (order : Z) :
  ((order < 0)%Z → derivative fd order = Raise (ValueError NegativeOrder))
  ∧ (constructed fd →
     ∃ fd', derivative fd 0 = Ok fd'
            ∧ basis fd' = basis fd
            ∧ coefficients fd' = coefficients fd
            ∧ equals fd' fd = nan_free (coefficients fd)
            ∧ (nan_free (coefficients fd) = true → equals fd' fd = true))
  ∧ ((0 < order)%Z →
     derivative fd order =
       ('(basis', coefficients') ←r
          _derivative_basis_and_coefs (basis fd) (coefficients fd) order;
        __init__ basis' (A2 coefficients') no_meta)).
Proof.
  split; [|split].
  - intros Hneg. unfold derivative.
    by rewrite (proj2 (Z.ltb_lt order 0) Hneg).
  - intros Hc. exists fd. unfold derivative. simpl.
    rewrite (copy_constructed _ Hc), equals_self. by repeat split.
  - intros Hpos. unfold derivative.
    rewrite (proj2 (Z.ltb_ge order 0)) by lia.
    by rewrite (proj2 (Z.eqb_neq order 0)) by lia.
Qed.

Section Operators.
Variable grid_refit : FDataBasis B → B → result (FDataBasis B).
Variable _copy_op :
  FDataBasis B → operand (B := B) (C := C) → B → array2
  → result (FDataBasis B).

(** C7.  Between two instances whose bases differ, [+] and [-]
    neither give a result nor raise: they return [NotImplemented].
    With equal bases they apply the same-basis rule of the basis and
    build the result from what the rule returns. *)
Theorem add_sub_cross_basis self (o : FDataBasis B) :
  (basis_eqb (basis self) (basis o) = false →
   __add__ _copy_op self (OtherBasis o) = NotImplemented
   ∧ __sub__ _copy_op self (OtherBasis o) = NotImplemented)
  ∧ (basis_eqb (basis self) (basis o) = true →
     __add__ _copy_op self (OtherBasis o) =
       of_result ('(b, coefs) ←r
                    _add_same_basis (basis self) (coefficients self)
                      (coefficients o);
                  _copy_op self (OtherBasis o) b coefs)
     ∧ __sub__ _copy_op self (OtherBasis o) =
       of_result ('(b, coefs) ←r
                    _sub_same_basis (basis self) (coefficients self)
                      (coefficients o);
                  _copy_op self (OtherBasis o) b coefs)).
Proof.
  split; intros Hb; unfold __add__, __sub__; by rewrite Hb.
Qed.

(** C8, as the code has it.  When the target basis equals the basis
    of a constructed instance, [to_basis] returns a copy with the
    same basis and the same coefficient matrix, whatever the refit
    would do; this covers [to_basis(self.basis)].  [equals] between
    the copy and the original holds exactly when no coefficient is
    NaN. *)
Theorem to_basis_same_basis fd b :
  constructed fd →
  basis_eqb b (basis fd) = true →
  (∃ fd', to_basis grid_refit fd b = Ok fd'
          ∧ basis fd' = basis fd
          ∧ coefficients fd' = coefficients fd
          ∧ equals fd' fd = nan_free (coefficients fd)
          ∧ (nan_free (coefficients fd) = true → equals fd' fd = true))
  ∧ to_basis grid_refit fd (basis fd) = to_basis grid_refit fd b.
Proof.
  intros Hc Hb. unfold to_basis. rewrite Hb, basis_eqb_refl.
  split; [|done]. exists fd.
  rewrite (copy_constructed _ Hc), equals_self. by repeat split.
Qed.
End Operators.

End Facts.

Section Concrete.
Import Examples.

Lemma docstring_sample_constructed : constructed docstring_sample.
Proof.
  by exists docstring_basis, (A1 docstring_coefficients), no_meta.
Qed.

Lemma na_sample_constructed : constructed na_sample.
Proof. by exists (MkMonomial 2), (A1 [NaN; NaN]), no_meta. Qed.

Lemma partly_nan_constructed : constructed partly_nan.
Proof.
  by exists (MkMonomial 2),
    (A2 (Array2 [[NaN; NaN]; [of_Z 1; NaN]] 2)), no_meta.
Qed.

(** Four coefficients fit four monomials; one coefficient does not. *)
Lemma init_column_count_witness :
  (∃ fd, __init__ docstring_basis (A1 docstring_coefficients) no_meta
         = Ok fd)
  ∧ __init__ docstring_basis (A1 [one]) no_meta
    = Raise (ValueError CoefficientsLength).
Proof.
  split.
  - apply (init_column_count docstring_basis (A1 docstring_coefficients)
             no_meta). reflexivity.
  - apply (init_column_count docstring_basis (A1 [one]) no_meta).
    simpl. lia.
Defined.

(** The all-NaN row is missing, the row with one number is not. *)
Lemma isna_all_nan_witness :
  isna partly_nan !! 0 = Some true ∧ isna partly_nan !! 1 = Some false.
Proof.
  destruct (isna_all_nan partly_nan) as [_ H]. split.
  - apply (H 0 [NaN; NaN]); [reflexivity|].
    intros x Hx. by repeat (apply elem_of_cons in Hx as [->|Hx]; [done|]);
      apply elem_of_nil in Hx.
  - apply (H 1 [of_Z 1; NaN]); [reflexivity|].
    exists (of_Z 1). split; [apply elem_of_cons; by left | done].
Defined.

Lemma derivative_cases_witness :
  derivative docstring_sample (-1) = Raise (ValueError NegativeOrder)
  ∧ (∃ fd', derivative docstring_sample 0 = Ok fd'
            ∧ equals fd' docstring_sample = true)
  ∧ derivative docstring_sample 1
    = Ok (MkFDataBasis (MkMonomial 3)
            (Array2 [[of_nat 1 * of_Z 1; of_nat 2 * of_Z 3;
                      of_nat 3 * half]%num] 3) no_meta).
Proof.
  split; [|split].
  - apply (derivative_cases docstring_sample (-1)). lia.
  - destruct (derivative_cases docstring_sample 0) as (_ & H & _).
    destruct (H docstring_sample_constructed)
      as (fd' & Hd & _ & _ & _ & Heq).
    exists fd'. split; [exact Hd|]. apply Heq. reflexivity.
  - destruct (derivative_cases docstring_sample 1) as (_ & _ & H).
    rewrite H by lia. reflexivity.
Defined.

(** The copy of a missing value is not [equals] to the original: the
    comparison of the coefficients meets NaN. *)
Lemma derivative_zero_of_na_not_equals :
  __init__ (MkMonomial 2) (A1 [NaN; NaN]) no_meta = Ok na_sample
  ∧ derivative na_sample 0 = Ok na_sample
  ∧ equals na_sample na_sample = false.
Proof. by repeat split. Qed.

Lemma add_sub_cross_basis_witness :
  __add__ copy_left docstring_sample (OtherBasis na_sample) = NotImplemented
  ∧ __sub__ copy_left docstring_sample (OtherBasis na_sample)
    = NotImplemented
  ∧ __add__ copy_left docstring_sample (OtherBasis docstring_sample)
    = Handled (MkFDataBasis docstring_basis
                 (Array2 [zip_with add docstring_coefficients
                            docstring_coefficients] 4) no_meta).
Proof.
  destruct (add_sub_cross_basis copy_left docstring_sample na_sample)
    as [Hdiff _].
  destruct (add_sub_cross_basis copy_left docstring_sample docstring_sample)
    as [_ Hsame].
  destruct (Hdiff eq_refl) as [Ha Hs].
  destruct (Hsame eq_refl) as [Ha' _].
  split; [exact Ha|]. split; [exact Hs|].
  rewrite Ha'. reflexivity.
Defined.

Lemma to_basis_same_basis_witness :
  ∃ fd', to_basis no_refit docstring_sample docstring_basis = Ok fd'
         ∧ equals fd' docstring_sample = true.
Proof.
  destruct (to_basis_same_basis no_refit docstring_sample docstring_basis
              docstring_sample_constructed eq_refl)
    as [(fd' & Ht & _ & _ & _ & Heq) _].
  exists fd'. split; [exact Ht|]. apply Heq. reflexivity.
Defined.

(** The round trip through the own basis of an instance with a NaN
    coefficient is not [equals] to the instance. *)
Lemma to_basis_own_basis_nan_not_equals :
  __init__ (MkMonomial 2) (A2 (Array2 [[NaN; NaN]; [of_Z 1; NaN]] 2))
    no_meta = Ok partly_nan
  ∧ to_basis no_refit partly_nan (basis partly_nan) = Ok partly_nan
  ∧ equals partly_nan partly_nan = false.
Proof. by repeat split. Qed.

End Concrete.
End BasisFacts.

(** ** Neighbor regression: weights and functional prediction *)

Module NeighborsFacts.
Import Neighbors.

Lemma existsb_eqb_zero (d : list num) :
  existsb id (map (λ x, x =? zero)%num d) = true ↔ zero ∈ d.
Proof.
  rewrite existsb_exists. split.
  - intros (b & Hb & Hid). apply in_map_iff in Hb as (x & <- & Hx).
    apply eqb_zero_iff in Hid as ->. by apply list_elem_of_In.
  - intros Hz. exists true. split; [|done]. apply in_map_iff.
    exists zero. split; [by apply eqb_zero_iff | by apply list_elem_of_In].
Qed.

Lemma set_where_tie (d : list num) :
  let idx := map (λ x, x =? zero)%num d in
  set_where (map negb idx) zero (set_where idx one d)
  = map (λ x, if (x =? zero)%num then one else zero) d.
Proof.
  unfold set_where. induction d as [|x d IH]; simpl; [done|].
  simpl in IH. rewrite IH. by destruct (x =? zero)%num.
Qed.

Lemma distance_weights_tie σ (distance : loc) (d : list num) :
  σ !! distance = Some d → zero ∈ d →
  _distance_weights distance σ
  = Ok (distance,
        <[distance := map (λ x, if (x =? zero)%num then one else zero) d]> σ).
Proof.
  intros Hd Hz. unfold _distance_weights, mbindM, load, store, mret.
  rewrite Hd. simpl.
  rewrite (proj2 (existsb_eqb_zero d) Hz).
  rewrite lookup_insert_eq. simpl. rewrite insert_insert_eq, Hd. simpl.
  by rewrite set_where_tie.
Qed.

Lemma distance_weights_no_tie σ (distance : loc) (d : list num) :
  σ !! distance = Some d → zero ∉ d →
  _distance_weights distance σ
  = Ok (fresh (dom σ), <[fresh (dom σ) := map (λ x, one / x)%num d]> σ).
Proof.
  intros Hd Hz. unfold _distance_weights, mbindM, load, alloc.
  rewrite Hd. simpl.
  destruct (existsb id _) eqn:E; [|done].
  by apply existsb_eqb_zero in E.
Qed.

Lemma of_nat_S (n : nat) : of_nat (S n) = (one + of_nat n)%num.
Proof.
  unfold of_nat, of_Z, one. simpl. f_equal. apply Qc_is_canon.
  simpl. rewrite !Qred_correct.
  rewrite Nat2Z.inj_succ. unfold Z.succ. rewrite inject_Z_plus. simpl. ring.
Qed.

Lemma of_nat_pos (n : nat) : 0 < n → ∃ q, of_nat n = Fin q ∧ (0 < q)%Qc.
Proof.
  intros Hn. eexists. split; [reflexivity|].
  unfold Qclt. cbn [this Q2Qc].
  rewrite (Qred_correct (inject_Z (Z.of_nat n))).
  unfold Qlt. simpl. lia.
Qed.

Lemma of_nat_0 : of_nat 0 = zero.
Proof. reflexivity. Qed.

Lemma sum_tie (d : list num) :
  Num.sum (Spec.tie_weights d) = of_nat (Spec.zero_count d).
Proof.
  unfold Spec.tie_weights, Spec.zero_count. induction d as [|x d IH]; simpl.
  - by rewrite of_nat_0.
  - rewrite IH. rewrite filter_cons. destruct (x =? zero)%num eqn:E.
    + rewrite decide_True by done. simpl. by rewrite of_nat_S.
    + rewrite decide_False by done.
      unfold of_nat, of_Z, zero, add. f_equal. by rewrite Qcplus_0_l.
Qed.

Lemma zero_count_pos (d : list num) : zero ∈ d → 0 < Spec.zero_count d.
Proof.
  intros Hz. unfold Spec.zero_count.
  assert (zero ∈ filter (λ x, (x =? zero)%num = true) d) as Hin.
  { apply list_elem_of_filter. split; [by apply eqb_zero_iff | done]. }
  destruct (filter _ d); [by apply elem_of_nil in Hin | simpl; lia].
Qed.

Lemma normalize_tie (d : list num) :
  zero ∈ d →
  Spec.normalize (Spec.tie_weights d)
  = map (λ x, if (x =? zero)%num
              then (one / of_nat (Spec.zero_count d))%num else zero) d.
Proof.
  intros Hz. unfold Spec.normalize. rewrite sum_tie. unfold Spec.tie_weights.
  rewrite map_map. apply map_ext. intros x.
  destruct (x =? zero)%num; [done|].
  destruct (of_nat_pos _ (zero_count_pos _ Hz)) as (q & -> & Hq).
  unfold zero, div, Qc_zerob.
  rewrite bool_decide_eq_false_2; [|by apply not_eq_sym, Qclt_not_eq].
  f_equal. unfold Qcdiv. apply Qcmult_0_l.
Qed.

Lemma one_div_pos (q : Qc) :
  (0 < q)%Qc → (one / Fin q)%num = Fin (/ q) ∧ (0 < / q)%Qc.
Proof.
  intros Hq. assert (q ≠ 0%Qc) as Hne by by apply not_eq_sym, Qclt_not_eq.
  split.
  - unfold one, div, Qc_zerob. rewrite bool_decide_eq_false_2 by done.
    f_equal. unfold Qcdiv. apply Qcmult_1_l.
  - destruct (Qclt_le_dec 0 (/ q)) as [|Hle]; [done|]. exfalso.
    assert (q * / q <= 0 * q)%Qc as H.
    { rewrite (Qcmult_comm q). apply Qcmult_le_compat_r; [done|].
      by apply Qclt_le_weak. }
    rewrite Qcmult_inv_r, Qcmult_0_l in H by done.
    by apply (Qcle_not_lt _ _ H).
Qed.

Local Abbreviation Qn n := (Q2Qc (inject_Z (Z.of_nat n))) (only parsing).

Lemma Qn_S (n : nat) : Qn (S n) = (1 + Qn n)%Qc.
Proof.
  pose proof (of_nat_S n) as H. unfold of_nat, of_Z, one in H.
  cbn [add] in H.
  exact (f_equal (λ x, match x with Fin q => q | _ => 0%Qc end) H).
Qed.

Lemma sum_scaled_tie (d : list num) (c : Qc) :
  Num.sum (map (λ x, if (x =? zero)%num then Fin c else zero) d)
  = Fin (Qn (Spec.zero_count d) * c).
Proof.
  unfold Spec.zero_count. induction d as [|x d IH].
  - simpl. by rewrite Qcmult_0_l.
  - cbn [map Num.sum foldr].
    fold (Num.sum (map (λ x, if (x =? zero)%num then Fin c else zero) d)).
    rewrite IH, filter_cons. destruct (x =? zero)%num eqn:E.
    + rewrite decide_True by done. cbn [length]. rewrite Qn_S.
      cbn [add]. f_equal.
      by rewrite Qcmult_plus_distr_l, Qcmult_1_l.
    + rewrite decide_False by done. unfold zero. cbn [add].
      f_equal. apply Qcplus_0_l.
Qed.

Lemma sum_tie_weights (d : list num) :
  zero ∈ d →
  Num.sum (map (λ x, if (x =? zero)%num
                     then (one / of_nat (Spec.zero_count d))%num else zero) d)
  = one.
Proof.
  intros Hz.
  destruct (of_nat_pos _ (zero_count_pos _ Hz)) as (q & Hk & Hq).
  rewrite Hk. destruct (one_div_pos q Hq) as [-> _].
  rewrite sum_scaled_tie.
  apply (f_equal (λ x, match x with Fin q => q | _ => 0%Qc end)) in Hk.
  cbn beta iota in Hk. unfold of_nat, of_Z in Hk. rewrite Hk. unfold one. f_equal.
  apply Qcmult_inv_r. by apply not_eq_sym, Qclt_not_eq.
Qed.

Lemma existsb_map {A B} (f : A → B) (g : B → bool) (l : list A) :
  existsb g (map f l) = existsb (λ x, g (f x)) l.
Proof. induction l as [|x l IH]; simpl; [done|]. by rewrite IH. Qed.

(** C10.  [_distance_weights] is destructive exactly in the tie case.
    With a zero among the distances it returns the array it was given,
    which by then holds 1 where the distance was zero and 0 elsewhere, so
    the distances are gone; without a zero it returns a new array of
    reciprocals and the array of distances is as it was. *)
Theorem distance_weights_in_place (σ : heap) (distance : loc)
    (d : list num) :
  σ !! distance = Some d →
  (zero ∈ d →
   ∃ σ', _distance_weights distance σ = Ok (distance, σ')
         ∧ σ' !! distance
           = Some (map (λ x, if (x =? zero)%num then one else zero) d)
         ∧ σ' !! distance ≠ Some d
         ∧ frame distance σ σ')
  ∧ (zero ∉ d →
     ∃ w σ', _distance_weights distance σ = Ok (w, σ')
             ∧ w ≠ distance
             ∧ σ !! w = None
             ∧ σ' !! w = Some (map (λ x, one / x)%num d)
             ∧ σ' !! distance = Some d
             ∧ frame w σ σ').
Proof.
  intros Hd. split; intros Hz.
  - eexists. split; [by apply distance_weights_tie|].
    rewrite lookup_insert_eq. split; [done|]. split.
    + intros [= Heq]. apply list_elem_of_lookup in Hz as [i Hi].
      apply (f_equal (λ l, l !! i)) in Heq.
      change (map ?f d) with (f <$> d) in Heq.
      rewrite list_lookup_fmap, Hi in Heq.
      change (Some one = Some zero) in Heq. discriminate Heq.
    + intros l Hl _. by rewrite lookup_insert_ne.
  - assert (σ !! fresh (dom σ) = None) as Hfresh
      by apply not_elem_of_dom, is_fresh.
    assert (fresh (dom σ) ≠ distance) as Hne by (intros Heq; congruence).
    eexists _, _. split; [by apply distance_weights_no_tie|].
    split; [done|]. split; [done|].
    rewrite lookup_insert_eq. split; [done|].
    split; [by rewrite lookup_insert_ne|].
    intros l Hl _. by rewrite lookup_insert_ne.
Qed.

Section HeapFacts.
Context {T : Type} `{!FData T} {Y P Index : Type}.
Implicit Types (σ : heap) (self : Estimator (T := T) (P := P) (Index := Index)).

Lemma bind_ok {A B} (m : M A) (k : A → M B) σ a σ' :
  m σ = Ok (a, σ') → mbindM m k σ = k a σ'.
Proof. intros H. unfold mbindM. by rewrite H. Qed.

Lemma bind_load {B} (k : list num → M B) σ (l : loc) (a : list num) :
  σ !! l = Some a → mbindM (load l) k σ = k a σ.
Proof. intros H. apply bind_ok. unfold load. by rewrite H. Qed.

Lemma bind_alloc {B} (k : loc → M B) σ (v : list num) :
  mbindM (alloc v) k σ = k (fresh (dom σ)) (<[fresh (dom σ) := v]> σ).
Proof. by apply bind_ok. Qed.

Lemma average_weights σ (X : T) (w : loc) (a : list num) :
  σ !! w = Some a →
  _average X (Some w) σ
  = Ok (fd_sum (fd_mul X (Spec.normalize a)), <[w := Spec.normalize a]> σ).
Proof.
  intros Hw. unfold _average, mbindM, load, store, mret.
  rewrite Hw. simpl. by rewrite lookup_insert_eq.
Qed.

Lemma prediction_value self (X : T) σ (distance : loc) (d : list num) :
  σ !! distance = Some d →
  ∃ σ', _prediction_from_neighbors self X distance σ
        = Ok (Spec.weighted_average (weights self) X d, σ')
        ∧ frame distance σ σ'.
Proof.
  intros Hd. unfold _prediction_from_neighbors, Spec.weighted_average.
  assert (∀ v, frame distance σ (<[fresh (dom σ) := v]> σ)) as Hfresh.
  { intros v l _ [x Hl]. rewrite lookup_insert_ne; [done|].
    intros <-. apply (is_fresh (dom σ)). apply elem_of_dom. by exists x. }
  destruct (weights self) as [| |f].
  - exists σ. by split.
  - unfold Spec.distance_weights.
    destruct (decide (zero ∈ d)) as [Hz|Hz].
    + rewrite (bind_ok _ _ _ _ _ (distance_weights_tie _ _ _ Hd Hz)).
      erewrite average_weights by apply lookup_insert_eq.
      rewrite insert_insert_eq.
      rewrite <- existsb_map with (g := id) (f := λ x, (x =? zero)%num).
      rewrite (proj2 (existsb_eqb_zero d) Hz).
      eexists. split; [done|].
      intros l Hl _. by rewrite lookup_insert_ne.
    + rewrite (bind_ok _ _ _ _ _ (distance_weights_no_tie _ _ _ Hd Hz)).
      erewrite average_weights by apply lookup_insert_eq.
      rewrite insert_insert_eq.
      rewrite <- existsb_map with (g := id) (f := λ x, (x =? zero)%num).
      destruct (existsb id _) eqn:E; [by apply existsb_eqb_zero in E|].
      eexists. split; [done|]. apply Hfresh.
  - rewrite (bind_load _ _ _ _ Hd), bind_alloc.
    erewrite average_weights by apply lookup_insert_eq.
    rewrite insert_insert_eq.
    eexists. split; [done|]. apply Hfresh.
Qed.


Lemma alloc_all_spec σ (D : list (list num)) :
  ∃ ds σ', alloc_all D σ = Ok (ds, σ')
    ∧ length ds = length D
    ∧ NoDup ds
    ∧ (∀ l, l ∈ ds → σ !! l = None)
    ∧ (∀ l, is_Some (σ !! l) → σ' !! l = σ !! l)
    ∧ (∀ i l, ds !! i = Some l → σ' !! l = D !! i).
Proof.
  revert σ. induction D as [|v D IH]; intros σ.
  - exists [], σ.
    repeat split; try done; [constructor | by intros l ?%elem_of_nil].
  - simpl. rewrite bind_alloc. set (l0 := fresh (dom σ)).
    assert (σ !! l0 = None) as Hl0.
    { apply not_elem_of_dom, is_fresh. }
    destruct (IH (<[l0 := v]> σ))
      as (ds & σ' & Hall & Hlen & Hnd & Hnew & Hold & Hget).
    exists (l0 :: ds), σ'. rewrite (bind_ok _ _ _ _ _ Hall). unfold mret.
    assert (l0 ∉ ds) as Hnotin.
    { intros Hin. apply Hnew in Hin. by rewrite lookup_insert_eq in Hin. }
    repeat split.
    + simpl. by rewrite Hlen.
    + by constructor.
    + intros l [->|Hin]%elem_of_cons; [done|].
      apply Hnew in Hin. destruct (decide (l = l0)) as [->|Hne]; [done|].
      by rewrite lookup_insert_ne in Hin.
    + intros l Hl. rewrite Hold.
      * rewrite lookup_insert_ne; [done|]. intros <-. rewrite Hl0 in Hl.
        by destruct Hl.
      * destruct (decide (l = l0)) as [->|Hne];
          [by rewrite lookup_insert_eq | by rewrite lookup_insert_ne].
    + intros [|i] l Hi; simpl in *.
      * injection Hi as <-. rewrite Hold by (by rewrite lookup_insert_eq).
        by rewrite lookup_insert_eq.
      * by apply Hget.
Qed.

Lemma outlier_response_spec self (N : list (list nat)) (y : T) (d : list num)
    (policy : WeightsType) :
  _outlier_response self N
  = Spec.sample_prediction policy (outlier_response self) y N [] d.
Proof. unfold _outlier_response. simpl. by destruct (outlier_response self). Qed.

Lemma value_of_lift {A B} (r : result A) (k : A → M B) σ :
  mbindM (lift r) k σ = match r with Ok a => k a σ | Raise e => Raise e end.
Proof. unfold mbindM, lift. by destruct r. Qed.

Lemma predict_rest_spec self (N : list (list nat)) (ds : list loc)
    (D : list (list num)) (y : T) :
  _y self = Some y → NoDup ds → length ds = length D →
  ∀ (Ns : list (list nat)) (k : nat) σ (pred : T),
    k + length Ns + 1 ≤ length ds →
    intact ds D (k + 1) σ →
    value_of (predict_rest self N ds (zip (seq k (length Ns)) Ns) pred σ)
    = Spec.join pred (zip Ns (drop (k + 1) D))
        (Spec.sample_prediction (weights self) (outlier_response self) y N).
Proof.
  intros Hy Hnd Hlen Ns. induction Ns as [|idx Ns IH]; intros k σ pred Hk Hin.
  - done.
  - simpl in Hk.
    destruct (lookup_lt_is_Some_2 ds (k + 1)) as [l Hl]; [lia|].
    destruct (Hin (k + 1) l (le_n _) Hl) as [Hσ [d Hd]].
    rewrite Hd in Hσ.
    rewrite (drop_S _ d) by done.
    cbn [length seq zip zip_with predict_rest Spec.join].
    assert (∀ σ1 pred1, intact ds D (k + 1 + 1) σ1 →
              value_of (predict_rest self N ds
                          (zip (seq (S k) (length Ns)) Ns) pred1 σ1)
              = Spec.join pred1 (zip Ns (drop (S (k + 1)) D))
                  (Spec.sample_prediction (weights self)
                     (outlier_response self) y N)) as IH'.
    { intros σ1 pred1 H1. rewrite (IH (S k)); [|lia|].
      - by replace (S k + 1) with (S (k + 1)) by lia.
      - by replace (S k + 1) with (k + 1 + 1) by lia. }
    destruct idx as [|n idx].
    + rewrite bool_decide_eq_true_2 by done.
      rewrite (outlier_response_spec self N y d (weights self)).
      unfold mbindM at 1. unfold lift at 1.
      destruct (Spec.sample_prediction _ _ _ _ [] d) as [new_pred|e]; [|done].
      cbn [rbind]. unfold mbindM at 1. unfold lift at 1.
      destruct (fd_concatenate pred new_pred) as [pred'|e]; [|done].
      apply IH'. intros j l' Hj Hl'. apply Hin; [lia|done].
    + rewrite bool_decide_eq_false_2 by done.
      rewrite Hy, Hl. cbn [attr Spec.sample_prediction rbind].
      destruct (prediction_value self (fd_getitem y (n :: idx)) σ l d Hσ)
        as (σ' & Hp & Hframe).
      unfold mbindM at 1. unfold mbindM at 1. unfold lift at 1.
      unfold mbindM at 1. unfold lift at 1. rewrite Hp.
      unfold mbindM at 1. unfold lift at 1.
      destruct (fd_concatenate pred _) as [pred'|e]; [|done].
      apply IH'. intros j l' Hj Hl'.
      destruct (Hin j l' ltac:(lia) Hl') as [Hj1 Hj2]. split; [|done].
      rewrite Hframe; [done| |by rewrite Hj1].
      intros ->. assert (j = k + 1) by (by eapply NoDup_lookup). lia.
Qed.


(** C2.  With [weights="distance"] and a zero among the distances,
    the weight vector the average is taken with holds, after
    renormalization, the same positive weight [1/k] for every neighbor at
    distance zero ([k] of them) and 0 for every other neighbor, and it
    sums to 1; for the distances [0, 0, 5] it is [0.5, 0.5, 0]. *)
Theorem tie_rule_weights self (X : T) σ (distance : loc) (d : list num) :
  weights self = Distance →
  σ !! distance = Some d →
  zero ∈ d →
  let share := (one / of_nat (Spec.zero_count d))%num in
  let w := map (λ x, if (x =? zero)%num then share else zero) d in
  _prediction_from_neighbors self X distance σ
  = Ok (fd_sum (fd_mul X w), <[distance := w]> σ)
  ∧ positive share
  ∧ Num.sum w = one
  ∧ (d = [n0; n0; n5] → w = [half; half; n0]).
Proof.
  intros Hw Hd Hz share w. repeat split.
  - unfold _prediction_from_neighbors. rewrite Hw.
    rewrite (bind_ok _ _ _ _ _ (distance_weights_tie _ _ _ Hd Hz)).
    erewrite average_weights by apply lookup_insert_eq.
    rewrite insert_insert_eq.
    fold (Spec.tie_weights d). by rewrite (normalize_tie d Hz).
  - subst share.
    destruct (of_nat_pos _ (zero_count_pos _ Hz)) as (q & -> & Hq).
    destruct (one_div_pos q Hq) as [-> Hinv]. exact Hinv.
  - by apply sum_tie_weights.
  - intros ->. reflexivity.
Qed.

Section Predict.
Variable _query :
  Estimator (T := T) (P := P) (Index := Index) → option Input
  → result (list (list num) * list (list nat)).

Lemma functional_predict_spec self (X : Input) Xmv
    (D : list (list num)) (N : list (list nat)) (y : T) :
  _transform_to_multivariate self (Some X) = Ok Xmv →
  _query self Xmv = Ok (D, N) →
  length D = length N →
  _y self = Some y →
  _functional_predict _query self X
  = Spec.functional_prediction (weights self) (outlier_response self) y D N.
Proof.
  intros HX Hq Hlen Hy. unfold _functional_predict, run.
  rewrite HX. cbn [rbind]. rewrite Hq. cbn [rbind].
  destruct (alloc_all_spec ∅ D)
    as (ds & σ & Hall & Hds & Hnd & _ & _ & Hget).
  rewrite (bind_ok _ _ _ _ _ Hall).
  unfold Spec.functional_prediction, Spec.predict_items.
  destruct N as [|idx Ns]; [by destruct D|].
  destruct D as [|d Ds]; [done|].
  destruct ds as [|l ds]; [done|].
  unfold mbindM at 1. unfold lift at 1. cbn [zip zip_with tail].
  assert (σ !! l = Some d) as Hσ by apply (Hget 0 l eq_refl).
  assert (∀ σ1 pred1, intact (l :: ds) (d :: Ds) 1 σ1 →
            value_of (predict_rest self (idx :: Ns) (l :: ds)
                        (enumerate Ns) pred1 σ1)
            = Spec.join pred1 (zip Ns Ds)
                (Spec.sample_prediction (weights self) (outlier_response self)
                   y (idx :: Ns))) as Hrest.
  { intros σ1 pred1 H1. unfold enumerate.
    rewrite (predict_rest_spec self (idx :: Ns) (l :: ds) (d :: Ds) y Hy Hnd Hds
               Ns 0 σ1 pred1); [done| |done].
    simpl in *. lia. }
  assert (intact (l :: ds) (d :: Ds) 1 σ) as Hintact.
  { intros j l' Hj Hl'. split; [by apply Hget|].
    apply lookup_lt_is_Some. rewrite <- Hds. by eapply lookup_lt_Some. }
  destruct idx as [|n idx].
  - rewrite bool_decide_eq_true_2 by done.
    rewrite (outlier_response_spec self ([] :: Ns) y d (weights self)).
    unfold mbindM at 1. unfold lift at 1.
    destruct (Spec.sample_prediction _ _ _ _ [] d) as [pred|e]; [|done].
    cbn [rbind]. by apply Hrest.
  - rewrite bool_decide_eq_false_2 by done.
    rewrite Hy. cbn [attr Spec.sample_prediction rbind lookup list_lookup].
    destruct (prediction_value self (fd_getitem y (n :: idx)) σ l d Hσ)
      as (σ' & Hp & Hframe).
    unfold mbindM at 1. unfold mbindM at 1. unfold lift at 1.
    unfold mbindM at 1. unfold lift at 1. rewrite Hp.
    apply Hrest. intros j l' Hj Hl'.
    destruct (Hintact j l' Hj Hl') as [Hj1 Hj2]. split; [|done].
    rewrite Hframe; [done| |by rewrite Hj1].
    intros ->. assert (j = 0) by (by eapply NoDup_lookup). lia.
Qed.

Lemma join_app (f : list nat → list num → result T) (pred : T)
    (l1 l2 : list (list nat * list num)) :
  Spec.join pred (l1 ++ l2) f = (p ←r Spec.join pred l1 f; Spec.join p l2 f).
Proof.
  revert pred. induction l1 as [|[idx d] l1 IH]; intros pred; [done|].
  simpl. destruct (f idx d) as [new_pred|e]; [|done]. simpl.
  destruct (fd_concatenate pred new_pred) as [pred'|e]; [|done]. simpl.
  apply IH.
Qed.

Lemma predict_items_outlier (policy : WeightsType) (y : T)
    (N : list (list nat)) (items : list (list nat * list num)) (i : nat)
    (d : list num) :
  items !! i = Some ([], d) →
  (i = 0 ∨ ∃ p, Spec.predict_items policy None y N (take i items) = Ok p) →
  Spec.predict_items policy None y N items
  = Raise (ValueError (NoNeighbors (Spec.outliers N))).
Proof.
  intros Hi Hprefix.
  rewrite <- (take_drop_middle items i ([], d) Hi).
  destruct Hprefix as [->|[p Hp]].
  - by rewrite take_0.
  - destruct (take i items) as [|[idx0 d0] pre] eqn:Htake; [done|].
    simpl in *.
    destruct (Spec.sample_prediction policy None y N idx0 d0)
      as [pred0|e]; [|done]. simpl in *.
    rewrite join_app, Hp. done.
Qed.

Lemma outliers_spec (N : list (list nat)) (i : nat) :
  i ∈ Spec.outliers N ↔ N !! i = Some [].
Proof.
  unfold Spec.outliers, where_true, enumerate.
  rewrite length_map. 
  rewrite list_elem_of_fmap. split.
  - intros ([j b] & -> & Hin). apply list_elem_of_filter in Hin as [Hb Hin].
    simpl in *. subst b. apply list_elem_of_lookup in Hin as [k Hk].
    apply lookup_zip_with_Some in Hk as (j' & b' & [= <- <-] & Hj & Hb).
    apply lookup_seq in Hj as [-> _]. simpl.
    change (map ?f N) with (f <$> N) in Hb.
    rewrite list_lookup_fmap in Hb.
    destruct (N !! k) as [idx|]; [|done]. simpl in Hb.
    injection Hb as Hb. apply bool_decide_eq_true in Hb.
    by destruct idx.
  - intros Hi. exists (i, true). split; [done|].
    apply list_elem_of_filter. split; [done|].
    apply list_elem_of_lookup. exists i.
    apply lookup_zip_with_Some. exists i, true. split; [done|]. split.
    + apply lookup_seq. split; [done|]. by eapply lookup_lt_Some.
    + change (map ?f N) with (f <$> N). by rewrite list_lookup_fmap, Hi.
Qed.

(** C3.  For a query that returns the distance arrays [D] and the
    neighbor arrays [N] of the test samples, the functional prediction is
    the per-sample predictions joined in the order of the samples, where
    a sample with neighbors gets the weighted average of the responses of
    its neighbors and a sample without neighbors gets the fallback.
    Without a fallback a sample without neighbors makes the prediction
    fail with the [ValueError] that lists the positions of all samples
    without neighbors (the samples before it having been predicted and
    joined). *)
Theorem functional_predict_outliers self (X : Input) Xmv
    (D : list (list num)) (N : list (list nat)) (y : T) :
  _transform_to_multivariate self (Some X) = Ok Xmv →
  _query self Xmv = Ok (D, N) →
  length D = length N →
  _y self = Some y →
  _functional_predict _query self X
  = Spec.functional_prediction (weights self) (outlier_response self) y D N
  ∧ (∀ i, i ∈ Spec.outliers N ↔ N !! i = Some [])
  ∧ (outlier_response self = None →
     ∀ i, N !! i = Some [] →
       (i = 0 ∨ ∃ p, Spec.predict_items (weights self) None y N
                       (take i (zip N D)) = Ok p) →
       _functional_predict _query self X
       = Raise (ValueError (NoNeighbors (Spec.outliers N))))
  ∧ (∀ r, outlier_response self = Some r →
     ∀ idx d,
       Spec.sample_prediction (weights self) (Some r) y N idx d
       = Ok (if bool_decide (idx = []) then r
             else Spec.weighted_average (weights self) (fd_getitem y idx) d)).
Proof.
  intros HX Hq Hlen Hy.
  pose proof (functional_predict_spec self X Xmv D N y HX Hq Hlen Hy) as Hspec.
  split; [done|]. split; [apply outliers_spec|]. split.
  - intros Hnone i Hi Hprefix. rewrite Hspec, Hnone.
    unfold Spec.functional_prediction.
    destruct (lookup_lt_is_Some_2 D i) as [d Hd].
    { rewrite Hlen. by eapply lookup_lt_Some. }
    apply (predict_items_outlier _ _ _ _ i d); [|done].
    apply lookup_zip_with_Some. by exists [], d.
  - intros r Hr idx d. by destruct idx.
Qed.
End Predict.
End HeapFacts.

Lemma same_grid_with_data (y : FDataGrid) d d' :
  Grid.same_grid (Grid.with_data y d) (Grid.with_data y d') = true.
Proof.
  unfold Grid.same_grid, Grid.with_data. simpl.
  by rewrite !bool_decide_eq_true_2.
Qed.

Lemma weighted_average_on_grid (policy : WeightsType) (y : FDataGrid)
    (idx : list nat) (d : list num) :
  ∃ data, Spec.weighted_average policy (fd_getitem y idx) d
          = Grid.with_data y data.
Proof. destruct policy; eexists; reflexivity. Qed.

(** On grids the predictions of samples that all have neighbors are
    grids over the points of the responses, and joining them goes
    through. *)
Lemma grid_predictions_join (policy : WeightsType) (y : FDataGrid)
    (N : list (list nat)) (items : list (list nat * list num)) :
  items ≠ [] →
  Forall (λ item, fst item ≠ []) items →
  ∃ p, Spec.predict_items policy None y N items = Ok p.
Proof.
  intros Hne Hall. destruct Hall as [|[idx d] rest Hidx Hrest]; [done|].
  clear Hne.
  cbn [fst] in Hidx. destruct idx as [|n idx]; [done|].
  cbn [Spec.predict_items Spec.sample_prediction rbind].
  destruct (weighted_average_on_grid policy y (n :: idx) d) as [data ->].
  revert data. induction Hrest as [|[idx' d'] rest Hidx' _ IH]; intros data.
  - by eexists.
  - cbn [fst] in Hidx'. destruct idx' as [|n' idx']; [done|].
    cbn [Spec.join Spec.sample_prediction rbind].
    destruct (weighted_average_on_grid policy y (n' :: idx') d')
      as [data' ->].
    cbn [fd_concatenate FDataGrid_FData]. unfold Grid.concatenate.
    rewrite same_grid_with_data. cbn [rbind]. by apply IH.
Qed.

Section Concrete.
Import Examples.

Lemma distance_weights_in_place_witness :
  (∃ σ', _distance_weights 0 tied = Ok (0, σ')
         ∧ σ' !! 0 = Some [n1; n1; n0])
  ∧ (∃ w σ', _distance_weights 0 apart = Ok (w, σ')
             ∧ w ≠ 0
             ∧ σ' !! w = Some [(n1 / n2)%num; (n1 / n5)%num]
             ∧ σ' !! 0 = Some [n2; n5]).
Proof.
  split.
  - destruct (distance_weights_in_place tied 0 [n0; n0; n5] eq_refl)
      as [Htie _].
    destruct Htie as (σ' & Hrun & Hw & _ & _).
    { apply elem_of_cons. by left. }
    exists σ'. split; [exact Hrun|]. rewrite Hw. reflexivity.
  - destruct (distance_weights_in_place apart 0 [n2; n5] eq_refl)
      as [_ Hfresh].
    destruct Hfresh as (w & σ' & Hrun & Hne & _ & Hw & Hd & _).
    { intros Hin. repeat (apply elem_of_cons in Hin as [Hin|Hin];
        [discriminate Hin|]). by apply elem_of_nil in Hin. }
    exists w, σ'. by repeat split.
Defined.

Lemma tie_rule_weights_witness :
  _prediction_from_neighbors (regressor Distance None) responses 0 tied
  = Ok (fd_sum (fd_mul responses [half; half; n0]),
        <[0 := [half; half; n0]]> tied).
Proof.
  destruct (tie_rule_weights (regressor Distance None) responses tied 0
              [n0; n0; n5] eq_refl eq_refl) as (Hrun & _ & _ & Hw).
  { apply elem_of_cons. by left. }
  rewrite Hrun. rewrite (Hw eq_refl). reflexivity.
Defined.

Lemma functional_predict_outliers_witness :
  _functional_predict (fixed_query D3 N3) (regressor Distance (Some fallback))
    (XGrid inputs)
  = Ok (curves [curve 2 3 4; curve 9 9 9; curve 5 6 7])
  ∧ _functional_predict (fixed_query D3 N3) (regressor Distance None)
      (XGrid inputs)
    = Raise (ValueError (NoNeighbors [1])).
Proof.
  split.
  - destruct (functional_predict_outliers (fixed_query D3 N3)
                (regressor Distance (Some fallback)) (XGrid inputs)
                (Some (XMatrix (_to_multivariate inputs))) D3 N3 responses
                eq_refl eq_refl eq_refl eq_refl) as (Hrun & _).
    rewrite Hrun. compute_done.
  - destruct (functional_predict_outliers (fixed_query D3 N3)
                (regressor Distance None) (XGrid inputs)
                (Some (XMatrix (_to_multivariate inputs))) D3 N3 responses
                eq_refl eq_refl eq_refl eq_refl) as (_ & _ & Hnone & _).
    apply (Hnone eq_refl 1 eq_refl). right. eexists. reflexivity.
Defined.

End Concrete.
End NeighborsFacts.

(** ** Neighbor classification with a precomputed metric *)

Module ClassifierFacts.
Import Neighbors.

Section Facts.
Context {T Y P Index : Type}.
Variable l2_distance : FDataGrid → FDataGrid → num.
Variable metric_fit :
  (FDataGrid → FDataGrid → num) → FDataGrid → FDataGrid → FDataGrid → num.
Variable index_fit : Index → Input → option Y → result Index.
Variable index_predict : Index → Input → result Y.
Variable classifier_init :
  Estimator (T := T) (P := P) (Index := Index) → sklearn_metric
  → result Index.
Implicit Types (self fitted : Estimator (T := T) (P := P) (Index := Index)).

Lemma zeros_shape (n : nat) :
  length (zeros n) = n ∧ Forall (λ row, row = replicate n zero) (zeros n).
Proof.
  unfold zeros. split; [apply length_replicate|].
  apply Forall_forall. intros row Hrow.
  by apply elem_of_replicate in Hrow as [-> _].
Qed.

(** C1, as the code has it.  With [precompute_metric=True], a metric
    other than ['precomputed'] and [multivariate_metric=False], [fit]
    fits the metric, keeps a copy of the training data in [_fit_X] (what
    it stores is the data, not a matrix of distances) and fits the index
    in ['precomputed'] mode on the all-zero matrix of shape
    [(n_samples, n_samples)].  [predict] of the classifier then computes
    the distances between the query and the training data kept in
    [_fit_X], under [l2_distance] for the tag ['l2'] and under the
    (fitted) metric of the user otherwise, and hands this matrix to
    [predict] of the index. *)
Theorem precompute_fit_and_predict self (g : FDataGrid) (y : Y) :
  is_precomputed (metric self) = false →
  precompute_metric self = true →
  multivariate_metric self = false →
  let self' :=
    set_fit_X
      (set_metric (set_grid self g)
         (_fit_metric metric_fit (metric self) g))
      (Grid.copy g) in
  let n := Grid.n_samples g in
  classifier_fit l2_distance metric_fit index_fit classifier_init self
    (XGrid g) y
  = (e ←r classifier_init self' SkPrecomputed;
     e' ←r index_fit e (XMatrix (zeros n)) (Some y);
     Ok (set_estimator_ self' e'))
  ∧ (length (zeros n) = n ∧ Forall (λ row, row = replicate n zero) (zeros n))
  ∧ ∀ fitted,
      classifier_fit l2_distance metric_fit index_fit classifier_init self
        (XGrid g) y
      = Ok fitted →
      _fit_X fitted = Some g
      ∧ ∃ metric0 e',
          functional_metric l2_distance (metric fitted) = Ok metric0
          ∧ (metric self = MetricL2 → metric0 = l2_distance)
          ∧ (∀ f, metric self = MetricCallable f → metric0 = metric_fit f g)
          ∧ estimator_ fitted = Some e'
          ∧ ∀ q, classifier_predict l2_distance index_predict fitted (XGrid q)
                 = index_predict e' (XMatrix (PairwiseMetric metric0 q g)).
Proof.
  intros Hpre Hflag Hmulti self' n.
  assert (classifier_fit l2_distance metric_fit index_fit classifier_init
            self (XGrid g) y
          = (e ←r classifier_init self' SkPrecomputed;
             e' ←r index_fit e (XMatrix (zeros n)) (Some y);
             Ok (set_estimator_ self' e'))) as Hfit.
  { unfold classifier_fit, fit. rewrite Hpre. cbn [config set_grid].
    by rewrite Hmulti, Hflag. }
  split; [exact Hfit|]. split; [apply zeros_shape|].
  intros fitted Hok. rewrite Hfit in Hok.
  destruct (classifier_init self' SkPrecomputed) as [e|]; [|done].
  cbn [rbind] in Hok.
  destruct (index_fit e (XMatrix (zeros n)) (Some y)) as [e'|]; [|done].
  injection Hok as <-. split; [done|].
  assert (∃ metric0,
            functional_metric l2_distance
              (_fit_metric metric_fit (metric self) g) = Ok metric0
            ∧ (metric self = MetricL2 → metric0 = l2_distance)
            ∧ (∀ f, metric self = MetricCallable f → metric0 = metric_fit f g))
    as (metric0 & Hm & Hl2 & Hf).
  { destruct (metric self) as [| |f]; [done| |].
    - exists l2_distance. by repeat split.
    - exists (metric_fit f g). repeat split; [done|]. by intros f' [= ->]. }
  exists metric0, e'. repeat split; try done.
  intros q. unfold classifier_predict. cbn. by rewrite Hflag, Hm.
Qed.
End Facts.

Section Concrete.
Import Examples.

Lemma precompute_fit_and_predict_witness :
  ∃ fitted, classifier true false = Ok fitted
    ∧ classifier_predict discrete list_index_predict fitted (XGrid inputs)
      = Ok [7; 8; 8].
Proof.
  destruct (precompute_fit_and_predict discrete no_fit_step list_index_fit
              list_index_predict (λ self m, Ok (new_index tt m))
              (configured Uniform true false None) inputs labels
              eq_refl eq_refl eq_refl) as (Hfit & _ & Hpredict).
  unfold classifier. rewrite Hfit. eexists. split; [reflexivity|].
  edestruct Hpredict as (_ & metric0 & e' & Hm & _ & Hf & He & Hq).
  { rewrite Hfit. reflexivity. }
  rewrite Hq. rewrite (Hf discrete eq_refl).
  injection He as <-. reflexivity.
Defined.

(** With both flags set [fit] takes the branch of the multivariate
    metric: the index is not in precomputed mode, no training data is
    kept, and [predict] fails.  With [precompute_metric] alone, what is
    kept is the training data; the only matrix around is the all-zero
    one, which is not the matrix of the training distances. *)
Lemma precompute_fit_keeps_no_distances :
  (∃ fitted, classifier true true = Ok fitted
     ∧ _fit_X fitted = None
     ∧ ix_metric <$> estimator_ fitted
       = Some (SkAsGiven (MetricCallable discrete))
     ∧ estimator_ fitted ≫= ix_X
       = Some (XMatrix (_to_multivariate inputs))
     ∧ classifier_predict discrete list_index_predict fitted (XGrid inputs)
       = Raise AttributeError)
  ∧ (∃ fitted, classifier true false = Ok fitted
       ∧ _fit_X fitted = Some inputs
       ∧ estimator_ fitted ≫= ix_X = Some (XMatrix (zeros 3))
       ∧ zeros 3 ≠ PairwiseMetric discrete inputs inputs).
Proof.
  split; eexists; (split; [reflexivity|]); repeat split.
  intros Heq. discriminate Heq.
Qed.
End Concrete.
End ClassifierFacts.

(** ** The functional score *)

Module ScoreFacts.
Import Neighbors.

Lemma mul_comm (x y : num) : (x * y)%num = (y * x)%num.
Proof.
  destruct x as [a|s|], y as [b|t|]; simpl; try done.
  - by rewrite Qcmult_comm.
  - by rewrite xorb_comm.
Qed.

Lemma transpose_lookup (c : nat) (a : list (list num)) (j : nat) :
  j < c →
  transpose c a !! j = Some (map (λ r, default zero (r !! j)) a).
Proof.
  intros Hj. unfold transpose.
  change (map ?f (seq 0 c)) with (f <$> seq 0 c).
  rewrite list_lookup_fmap, (lookup_seq_lt _ _ _ Hj). done.
Qed.

Lemma length_transpose (c : nat) (a : list (list num)) :
  length (transpose c a) = c.
Proof. unfold transpose. by rewrite length_map, length_seq. Qed.

Lemma scale_through_transpose_rows (c : nat) (w : list num)
    (a : list (list num)) :
  length w = length a →
  Forall (λ r, length r = c) a →
  scale_through_transpose c w a
  = Ok (zip_with (λ wi row, map (mul wi) row) w a).
Proof.
  intros Hw Ha. unfold scale_through_transpose.
  rewrite bool_decide_eq_true_2 by done. cbn [negb]. f_equal.
  apply list_eq. intros i.
  destruct (decide (i < length a)) as [Hi|Hi].
  - rewrite (transpose_lookup _ _ _ Hi).
    destruct (lookup_lt_is_Some_2 a i Hi) as [r Hr].
    destruct (lookup_lt_is_Some_2 w i) as [wi Hwi]; [lia|].
    rewrite (proj2 (lookup_zip_with_Some _ _ _ _ _)
               (ex_intro _ wi (ex_intro _ r (conj eq_refl (conj Hwi Hr))))).
    f_equal. apply list_eq. intros j.
    change (map ?f ?l) with (f <$> l).
    rewrite !list_lookup_fmap.
    assert (length r = c) as Hrc by by eapply (proj1 (Forall_lookup _ _) Ha).
    destruct (decide (j < c)) as [Hj|Hj].
    + rewrite (transpose_lookup _ _ _ Hj).
      destruct (lookup_lt_is_Some_2 r j) as [x Hx]; [lia|].
      rewrite Hx. cbn [fmap option_fmap option_map].
      f_equal.
      change (map ?f ?l) with (f <$> l).
      rewrite lookup_zip_with, list_lookup_fmap, Hr, Hwi. cbn.
      rewrite Hx. cbn. apply mul_comm.
    + rewrite (lookup_ge_None_2 (transpose c a)) by (rewrite length_transpose; lia).
      by rewrite (lookup_ge_None_2 r) by lia.
  - rewrite !lookup_ge_None_2; [done| |].
    + rewrite length_zip_with. lia.
    + rewrite length_transpose. lia.
Qed.

Lemma sum_finite (w : list num) :
  Forall (λ x, is_fin x = true) w → is_fin (Num.sum w) = true.
Proof.
  induction 1 as [|x w Hx _ IH]; [done|]. simpl.
  destruct x; try done. by destruct (Num.sum w).
Qed.

Lemma normalize_finite (w : list num) :
  Forall (λ x, is_fin x = true) w → Num.sum w ≠ zero →
  Forall (λ x, is_fin x = true) (Spec.normalize w).
Proof.
  intros Hw Hsum. unfold Spec.normalize.
  pose proof (sum_finite w Hw) as Hfin.
  destruct (Num.sum w) as [s| |]; try done.
  apply Forall_forall. intros x Hx.
  change (map ?f ?l) with (f <$> l) in Hx.
  apply list_elem_of_fmap in Hx as (x0 & -> & Hx0).
  rewrite Forall_forall in Hw. specialize (Hw x0 Hx0).
  destruct x0 as [a| |]; try done. simpl. unfold Qc_zerob.
  rewrite bool_decide_eq_false_2; [done|]. intros ->. by apply Hsum.
Qed.

Lemma square_zero : square zero = zero.
Proof. reflexivity. Qed.

Lemma sum_axis0_zero (c : nat) (a : list (list num)) :
  Forall (λ r, r = replicate c zero) a →
  sum_axis0 c a = replicate c zero.
Proof.
  induction 1 as [|r a -> _ IH]; [done|].
  unfold sum_axis0 in *. simpl. rewrite IH.
  clear. induction c as [|c IH]; [done|]. simpl. by rewrite IH.
Qed.

Lemma zero_row (c : nat) (r : list num) :
  length r = c → Forall (λ x, x = zero) r → r = replicate c zero.
Proof.
  intros <- Hr. induction Hr as [|x r -> _ IH]; [done|]. simpl. by f_equal.
Qed.

Lemma weighted_square_sum_zero (c : nat) (w : option (list num))
    (a : list (list num)) :
  Forall (λ r, length r = c) a →
  Forall (Forall (λ x, x = zero)) a →
  Spec.weights_finite w →
  Spec.weighted_square_sum c w a = replicate c zero.
Proof.
  intros Hlen Hzero Hw. unfold Spec.weighted_square_sum.
  assert (Forall (λ r, r = replicate c zero) (map (map square) a)) as Hsq.
  { apply Forall_forall. intros r Hr.
    change (map ?f ?l) with (f <$> l) in Hr.
    apply list_elem_of_fmap in Hr as (r0 & -> & Hr0).
    rewrite Forall_forall in Hlen, Hzero.
    rewrite (zero_row c r0 (Hlen _ Hr0) (Hzero _ Hr0)).
    clear. induction c as [|c IH]; [done|].
    cbn [replicate map]. by rewrite IH, square_zero. }
  destruct w as [w|]; [|by apply sum_axis0_zero].
  apply sum_axis0_zero.
  destruct Hw as [Hfin Hsum].
  pose proof (normalize_finite w Hfin Hsum) as Hn.
  revert Hsq Hn. generalize (Spec.normalize w) (map (map square) a).
  intros ws rs Hrs. revert ws.
  induction Hrs as [|r rs -> _ IH]; intros ws Hws.
  - by destruct ws.
  - destruct Hws as [|wi ws Hwi Hws]; [done|]. simpl.
    constructor; [|by apply IH].
    destruct wi as [q| |]; try done.
    clear. induction c as [|c IH]; [done|].
    cbn [replicate map]. rewrite IH. f_equal.
    unfold zero. cbn [mul]. f_equal. apply Qcmult_0_r.
Qed.

Lemma one_minus_zero_over (x : num) :
  x ≠ zero → x ≠ NaN → (one - zero / x)%num = one.
Proof.
  intros Hz Hn.
  assert ((zero / x)%num = zero) as ->.
  { destruct x as [q| |]; try done. unfold zero, div, Qc_zerob.
    rewrite bool_decide_eq_false_2 by (intros ->; by apply Hz).
    f_equal. unfold Qcdiv. apply Qcmult_0_l. }
  reflexivity.
Qed.

Lemma sub_self_finite (x : num) : is_fin x = true → (x - x)%num = zero.
Proof.
  destruct x as [a| |]; try done. intros _. unfold sub, zero. cbn [neg add].
  f_equal. apply Qcplus_opp_r.
Qed.

Lemma sub_sample_self (s : list (list num)) :
  Forall (Forall (λ x, is_fin x = true)) s →
  Forall (λ x, x = zero)
    (map (λ p, default zero (head p)) (Grid.sub_sample s s)).
Proof.
  unfold Grid.sub_sample. induction 1 as [|p s Hp _ IH]; [constructor|].
  simpl. constructor; [|exact IH].
  destruct Hp as [|x p Hx _]; [done|]. simpl. by apply sub_self_finite.
Qed.

(** On grids, a prediction equal to the target leaves a residual whose
    values are all zero, provided the target is finite. *)
Lemma grid_residual_of_exact_prediction (y : FDataGrid) :
  Forall (Forall (Forall (λ x, is_fin x = true))) (data_matrix y) →
  ∃ u, fd_sub y y = Ok u
       ∧ grid_points u = grid_points y
       ∧ dim_codomain u = dim_codomain y
       ∧ Forall (Forall (λ x, x = zero)) (Spec.values u).
Proof.
  intros Hfin. simpl. unfold Grid.sub, Grid.same_grid, Grid.n_samples.
  rewrite !bool_decide_eq_true_2 by done. cbn [andb negb].
  assert (Forall (Forall (λ x, x = zero))
            (map (map (λ p, default zero (head p)))
               (zip_with Grid.sub_sample (data_matrix y) (data_matrix y))))
    as Hzip.
  { induction Hfin as [|s d Hs _ IH]; [constructor|].
    simpl. constructor; [by apply sub_sample_self | exact IH]. }
  destruct (data_matrix y) as [|b [|b' d]] eqn:Hd.
  - eexists. split; [by rewrite bool_decide_eq_true_2|]. by repeat split.
  - eexists. split; [done|]. by repeat split.
  - eexists. split; [by rewrite bool_decide_eq_true_2|]. by repeat split.
Qed.

Section Score.
Context {T : Type} `{!FData T} {Y P Index : Type}.
Variable index_predict : Index → Input → result Y.
Variable _query :
  Estimator (T := T) (P := P) (Index := Index) → option Input
  → result (list (list num) * list (list nat)).
Variable simps : list num → list num → num.
Implicit Types (self : Estimator (T := T) (P := P) (Index := Index)).

Lemma coordinate0_values (g : FDataGrid) (points : list num) :
  Spec.on_axis g points →
  coordinate0 g = Ok (Spec.values g)
  ∧ axis0 g = Ok points
  ∧ Grid.n_points (grid_points g) = length points
  ∧ Forall (λ r, length r = length points) (map (map square) (Spec.values g)).
Proof.
  intros (Hc & Hg & Hrows). unfold coordinate0, axis0, Grid.n_points.
  rewrite bool_decide_eq_false_2 by done. rewrite Hg. simpl.
  repeat split; [lia|].
  unfold Spec.values. rewrite Forall_forall in Hrows.
  apply Forall_forall. intros r Hr.
  change (map ?f ?l) with (f <$> l) in Hr.
  apply list_elem_of_fmap in Hr as (r1 & -> & Hr).
  apply list_elem_of_fmap in Hr as (r0 & -> & Hr).
  rewrite !length_map. by apply Hrows.
Qed.

(** C5, as the code has it.  The functional score raises the
    [ValueError] of the dimension check whenever the response does not
    have one domain dimension and one codomain dimension.  For a response
    that has, with prediction [pred], residual [u = y - pred] and
    deviation [v = y - mean(y)] given as grids over one axis, it returns
    [1 - ∫u² / ∫v²], the integrands being the (weighted) sums over the
    samples of the squared values.  When the residual is zero
    (predictions equal to the targets), the weights can be renormalized
    and the quadrature of the zero function is zero, the score is exactly
    1 provided the integral of the squared deviation is neither zero nor
    NaN. *)
Theorem functional_score_cases self (X : Input) (y : T)
    (sample_weight : option (list num)) :
  (fd_dim_codomain y ≠ 1 ∨ fd_dim_domain y ≠ 1 →
   _functional_score index_predict _query simps self X y sample_weight
   = Raise (ValueError ScoreMultivariate))
  ∧ (fd_dim_codomain y = 1 → fd_dim_domain y = 1 →
     ∀ (pred u v : T) (gu gv : FDataGrid) (points_u points_v : list num),
       predict index_predict _query self X = Ok (inl pred) →
       fd_sub y pred = Ok u →
       fd_sub y (fd_mean y) = Ok v →
       (fd_as_grid u = Some gu ∧ fd_as_grid v = Some gv)
       ∨ (fd_as_grid u = None ∧ gu = fd_to_grid u ∧ gv = fd_to_grid v) →
       Spec.on_axis gu points_u →
       Spec.on_axis gv points_v →
       (∀ w, sample_weight = Some w →
             length w = fd_n_samples y
             ∧ length w = Grid.n_samples gu
             ∧ length w = Grid.n_samples gv) →
       let int_u := Spec.square_integral simps sample_weight gu points_u in
       let int_v := Spec.square_integral simps sample_weight gv points_v in
       _functional_score index_predict _query simps self X y sample_weight
       = Ok (one - int_u / int_v)%num
       ∧ (Forall (Forall (λ x, x = zero)) (Spec.values gu) →
          Spec.weights_finite sample_weight →
          simps (replicate (length points_u) zero) points_u = zero →
          int_v ≠ zero → int_v ≠ NaN →
          _functional_score index_predict _query simps self X y sample_weight
          = Ok one)).
Proof.
  split.
  - intros Hdim. unfold _functional_score.
    destruct Hdim as [Hd|Hd]; rewrite (bool_decide_eq_false_2 _ Hd);
      [done | by rewrite orb_true_r].
  - intros Hc Hd pred u v gu gv points_u points_v Hpred Hu Hv Hgrid
      Hgu Hgv Hw int_u int_v.
    destruct (coordinate0_values gu points_u Hgu) as (Hcu & Hau & Hnu & Hru).
    destruct (coordinate0_values gv points_v Hgv) as (Hcv & Hav & Hnv & Hrv).
    assert (_functional_score index_predict _query simps self X y sample_weight
            = Ok (one - int_u / int_v)%num) as Hscore.
    { unfold _functional_score.
      rewrite !bool_decide_eq_true_2 by done. cbn [negb orb].
      rewrite Hpred. cbn [rbind]. rewrite Hu. cbn [rbind].
      rewrite Hv. cbn [rbind].
      assert ((match fd_as_grid u with
               | Some gu0 => gv0 ←r attr (fd_as_grid v); Ok (gu0, gv0)
               | None => Ok (fd_to_grid u, fd_to_grid v)
               end) = Ok (gu, gv)) as ->.
      { destruct Hgrid as [[-> ->]|(-> & -> & ->)]; done. }
      cbn [rbind]. rewrite Hcu, Hcv. cbn [rbind]. rewrite Hnu, Hnv.
      subst int_u int_v. unfold Spec.square_integral, Spec.weighted_square_sum.
      destruct sample_weight as [w|].
      - destruct (Hw w eq_refl) as (Hwy & Hwu & Hwv).
        rewrite bool_decide_eq_true_2 by done. cbn [negb].
        rewrite !scale_through_transpose_rows; try done.
        + cbn [rbind]. by rewrite Hau, Hav.
        + unfold Spec.normalize, Spec.values. rewrite !length_map. exact Hwv.
        + unfold Spec.normalize, Spec.values. rewrite !length_map. exact Hwu.
      - cbn [rbind]. by rewrite Hau, Hav. }
    split; [exact Hscore|].
    intros Hzero Hfin Hsimps Hnz Hnn. rewrite Hscore.
    assert (int_u = zero) as ->.
    { subst int_u. unfold Spec.square_integral.
      rewrite weighted_square_sum_zero; try done.
      destruct Hgu as (_ & _ & Hrows). unfold Spec.values.
      rewrite Forall_forall in Hrows. apply Forall_forall. intros r Hr.
      change (map ?f ?l) with (f <$> l) in Hr.
      apply list_elem_of_fmap in Hr as (r0 & -> & Hr).
      rewrite length_map. by apply Hrows. }
    f_equal. by apply one_minus_zero_over.
Qed.
End Score.

Section ConcreteScore.
Import Examples.

Lemma functional_score_cases_witness :
  _functional_score list_index_predict (fixed_query D_self N_self) simpson
    (regressor Uniform None) (XGrid inputs) vector_valued None
  = Raise (ValueError ScoreMultivariate)
  ∧ _functional_score list_index_predict (fixed_query D_self N_self) simpson
      (regressor Uniform None) (XGrid inputs) responses None
    = Ok one.
Proof.
  split.
  - apply (functional_score_cases list_index_predict
             (fixed_query D_self N_self) simpson (regressor Uniform None)
             (XGrid inputs) vector_valued None).
    left. simpl. lia.
  - set (residual := curves [curve 0 0 0; curve 0 0 0; curve 0 0 0]).
    set (deviation := curves [curve (-2) (-2) (-2); curve 0 0 0; curve 2 2 2]).
    destruct (functional_score_cases list_index_predict
                (fixed_query D_self N_self) simpson (regressor Uniform None)
                (XGrid inputs) responses None) as [_ Hscore].
    assert (predict list_index_predict (fixed_query D_self N_self)
              (regressor Uniform None) (XGrid inputs) = Ok (inl responses))
      as Hpred by compute_done.
    assert (fd_sub responses responses = Ok residual) as Hu by compute_done.
    assert (fd_sub responses (fd_mean responses) = Ok deviation) as Hv
      by compute_done.
    assert (Spec.on_axis residual axis) as Hgu.
    { repeat split; [done|]. by repeat constructor. }
    assert (Spec.on_axis deviation axis) as Hgv.
    { repeat split; [done|]. by repeat constructor. }
    pose proof (Hscore eq_refl eq_refl responses residual deviation
                  residual deviation axis axis Hpred Hu Hv
                  (or_introl (conj eq_refl eq_refl)) Hgu Hgv
                  ltac:(done)) as Hs.
    cbv zeta in Hs. destruct Hs as [_ Hone]. apply Hone.
    + by repeat constructor.
    + done.
    + reflexivity.
    + intros Heq. vm_compute in Heq. discriminate Heq.
    + intros Heq. vm_compute in Heq. discriminate Heq.
Defined.

(** One test sample predicted exactly: the deviation from the mean is
    zero as well, and the score is [0/0]. *)
Lemma functional_score_single_sample_nan :
  predict list_index_predict (fixed_query [[n0]] [[0]])
    (regressor_on single_input single_response Uniform None)
    (XGrid single_input)
  = Ok (inl single_response)
  ∧ _functional_score list_index_predict (fixed_query [[n0]] [[0]]) simpson
      (regressor_on single_input single_response Uniform None)
      (XGrid single_input) single_response None
    = Ok NaN.
Proof. split; compute_done. Qed.

End ConcreteScore.

End ScoreFacts.
